(** * SOL anomaly alert bot: the streaming detector and the reconnect loop

    A shallow embedding of [main.py]: the [Settings] record, the
    [AnomalyDetector] class ([__init__], [_mean_std], [check]) and the
    back-off bookkeeping of [ws_loop], followed by the properties the
    specification states about them.

    Python's [float] is IEEE 754 binary64, which is the kernel's primitive
    [float]; Python's [int] is [Z].  A Python exception is a value of
    [PyExc]; a method of the detector is a function from the detector before
    the call to the detector after it and either the returned value or the
    exception raised (state written before a [raise] stays written). *)

From Stdlib Require Import String ZArith List Bool Lia Floats.
Import ListNotations.

#[local] Set Warnings "-inexact-float".
#[local] Open Scope Z_scope.

(** ** Exceptions *)

Inductive PyExc : Type :=
| ZeroDivisionError
| OverflowError
| ValueError
| KeyError
| TypeError.

Inductive result (A : Type) : Type :=
| Ok (a : A)
| Raise (e : PyExc).

Arguments Ok {A} a.
Arguments Raise {A} e.

Definition result_bind {A B : Type} (r : result A) (k : A -> result B) : result B :=
  match r with
  | Ok a => k a
  | Raise e => Raise e
  end.

Declare Scope result_scope.
Delimit Scope result_scope with result.
Notation "x <- r ;; k" := (result_bind r (fun x => k))
  (at level 61, r at next level, right associativity) : result_scope.

(** ** Python numbers *)

Module Py.

(** [float(n)] for an [int]: the nearest binary64 value (ties to even);
    [OverflowError] when that is not finite. *)
Definition float_of_int (n : Z) : result float :=
  let f := SF2Prim (binary_normalize prec emax n 0 false) in
  if is_infinity f then Raise OverflowError else Ok f.

(** [int(f)]: truncation towards zero; [ValueError] on a NaN,
    [OverflowError] on an infinity. *)
Definition int_of_float (f : float) : result Z :=
  match Prim2SF f with
  | S754_zero _ => Ok 0
  | S754_finite sign m e =>
      let a := match e with
               | Zneg p => Z.shiftr (Zpos m) (Zpos p)
               | _ => Z.shiftl (Zpos m) e
               end in
      Ok (if sign then - a else a)
  | S754_infinity _ => Raise OverflowError
  | S754_nan => Raise ValueError
  end.

(** [f < n] for a float [f] and an int [n]: Python compares the two exactly,
    without rounding [n] to a float. *)
Definition float_lt_int (f : float) (n : Z) : bool :=
  match Prim2SF f with
  | S754_zero _ => 0 <? n
  | S754_finite sign m e =>
      let a := if sign then Zneg m else Zpos m in
      match e with
      | Zneg p => a <? Z.shiftl n (Zpos p)
      | _ => Z.shiftl a e <? n
      end
  | S754_infinity sign => sign
  | S754_nan => false
  end.

(** [a / b] on floats raises on a zero divisor instead of returning an
    infinity or a NaN. *)
Definition truediv (a b : float) : result float :=
  if (b =? 0)%float then Raise ZeroDivisionError else Ok (a / b)%float.

(** [f / n] with an [int] divisor: the divisor is converted first. *)
Definition truediv_int (a : float) (n : Z) : result float :=
  (b <- float_of_int n ;; truediv a b)%result.

(** [n * f] with an [int] on the left: the int is converted first. *)
Definition int_mul (n : Z) (f : float) : result float :=
  (a <- float_of_int n ;; Ok (a * f)%float)%result.

(** [f ** 2]: the square, except that a finite base whose square is not
    finite raises [OverflowError] (C [pow] reports [ERANGE]).  The square is
    taken as the correctly rounded product; C [pow] may be one unit in the
    last place away from it.  The two agree where the squares are exact
    (zero, one, the powers of two, small integers), on a NaN and on
    overflow, which is where the properties below depend on the value. *)
Definition pow2 (f : float) : result float :=
  let r := (f * f)%float in
  if is_finite f && is_infinity r then Raise OverflowError else Ok r.

(** [math.sqrt]: [ValueError] ("math domain error") below zero. *)
Definition math_sqrt (f : float) : result float :=
  if (f <? 0)%float then Raise ValueError else Ok (sqrt f).

(** [sum(f(x) for x in vals)]: starts from the int [0], which the first
    addition turns into [0.0], and adds from left to right; the generator
    raises at the first element on which [f] does. *)
Fixpoint sum_gen (f : float -> result float) (vals : list float) (acc : float)
  : result float :=
  match vals with
  | [] => Ok acc
  | x :: rest => (y <- f x ;; sum_gen f rest (acc + y)%float)%result
  end.

(** [sum(vals)]: the additions from left to right, each rounded, as CPython
    does up to version 3.11; from 3.12 on [sum] compensates the rounding
    errors of float additions, which can change the last bits of a mean. *)
Definition sum (vals : list float) : float :=
  fold_left PrimFloat.add vals 0%float.

(** [max(a, b)] and [min(a, b)] return the first argument unless the second
    is strictly better. *)
Definition max (a b : Z) : Z := if a <? b then b else a.

Definition min (a b : float) : float := if (b <? a)%float then b else a.

End Py.

(** ** [collections.deque] with a [maxlen] *)

Record Deque : Type := mkDeque {
  maxlen : Z;
  items : list float
}.

(** [deque(maxlen=n)]: the int is first converted to a [Py_ssize_t] (64
    bits), which raises [OverflowError] when it does not fit; then
    [ValueError] when it is negative. *)
Definition deque_new (n : Z) : result Deque :=
  if (n <? - 2 ^ 63) || (2 ^ 63 <=? n) then Raise OverflowError
  else if n <? 0 then Raise ValueError
  else Ok (mkDeque n []).

Definition deque_len (d : Deque) : Z := Z.of_nat (length (items d)).

(** [d.append(x)]: the element goes to the right end, and the left-most one
    is dropped when the length then exceeds [maxlen]. *)
Definition deque_append (d : Deque) (x : float) : Deque :=
  let l := items d ++ [x] in
  mkDeque (maxlen d)
          (if maxlen d <? Z.of_nat (length l) then tl l else l).

(** ** [Settings] *)

Record Settings : Type := mkSettings {
  telegram_token : string;
  telegram_chat_id : string;
  symbol : string;
  kline_interval : string;
  volume_window : Z;
  volume_zscore : float;
  minute_volume_min : float;
  price_window : Z;
  price_pct_change : float;
  alert_cooldown_min : Z;
  merge_signals_window : Z
}.

(** The values [Settings.load] falls back to when the environment sets
    nothing (the two Telegram fields default to the empty string). *)
Definition default_settings : Settings :=
  {| telegram_token := EmptyString;
     telegram_chat_id := EmptyString;
     symbol := "SOLUSDT"%string;
     kline_interval := "1m"%string;
     volume_window := 30;
     volume_zscore := 3%float;
     minute_volume_min := 0%float;
     price_window := 10;
     price_pct_change := 2%float;
     alert_cooldown_min := 10;
     merge_signals_window := 1 |}.

(** ** The kline and the signals *)

(** The fields of a Binance kline that [check] reads, already decoded:
    [T] is [int(kline["T"])], [c] and [v] are [float(kline["c"])] and
    [float(kline["v"])], [x] is [kline.get("x", False)].  The dict as it
    arrives, with fields that may be missing or may not parse, is
    [RawKline.t] below. *)
Module Kline.
Record t : Type := mk {
  T : Z;
  c : float;
  v : float;
  x : bool
}.
End Kline.

(** The dict [{"volume": _, "price": _, "merged": _}] that [check] returns. *)
Record Signals : Type := mkSignals {
  volume : bool;
  price : bool;
  merged : bool
}.

Definition no_signals : Signals := mkSignals false false false.

(** [last_alert_ts]: a [defaultdict(lambda: 0.0)] that is only ever indexed
    by the three keys below, so it is the record of their three values; a key
    that was never written reads as [0.0]. *)
Record AlertTs : Type := mkAlertTs {
  ts_volume : float;
  ts_price : float;
  ts_merged : float
}.

(** ** [AnomalyDetector] *)

Record AnomalyDetector : Type := mkDetector {
  s : Settings;
  volumes : Deque;
  prices : Deque;
  last_alert_ts : AlertTs;
  last_minute_ts : option Z
}.

(** [AnomalyDetector.__init__]. *)
Definition init (settings : Settings) : result AnomalyDetector :=
  (vols <- deque_new (volume_window settings) ;;
   prs <- deque_new (price_window settings + 1) ;;
   Ok {| s := settings;
         volumes := vols;
         prices := prs;
         last_alert_ts := mkAlertTs 0 0 0;
         last_minute_ts := None |})%result.

(** [AnomalyDetector._mean_std]. *)
Definition _mean_std (vals : Deque) : result (float * float) :=
  let n := deque_len vals in
  if n =? 0 then Ok (0%float, 0%float)
  else
    (m <- Py.truediv_int (Py.sum (items vals)) n ;;
     var <- (if 1 <? n
             then (sq <- Py.sum_gen (fun x => Py.pow2 (x - m)%float) (items vals) 0%float ;;
                   Py.truediv_int sq n)
             else Ok 0%float) ;;
     sd <- Py.math_sqrt var ;;
     Ok (m, sd))%result.

(** ** Methods: the detector before, the detector after, the outcome *)

Definition Method (A : Type) : Type :=
  AnomalyDetector -> AnomalyDetector * result A.

Definition ret {A : Type} (a : A) : Method A :=
  fun self => (self, Ok a).

Definition bind {A B : Type} (m : Method A) (k : A -> Method B) : Method B :=
  fun self =>
    match m self with
    | (self', Ok a) => k a self'
    | (self', Raise e) => (self', Raise e)
    end.

(** A computation that reads the detector and may raise. *)
Definition eval {A : Type} (f : AnomalyDetector -> result A) : Method A :=
  fun self => (self, f self).

(** An assignment to attributes of [self]. *)
Definition assign (f : AnomalyDetector -> AnomalyDetector) : Method unit :=
  fun self => (f self, Ok tt).

Declare Scope method_scope.
Delimit Scope method_scope with method.
Notation "x <- m ;; k" := (bind m (fun x => k))
  (at level 61, m at next level, right associativity) : method_scope.
Notation "m ;; k" := (bind m (fun _ => k))
  (at level 61, right associativity) : method_scope.

Definition set_last_minute_ts (b : option Z) (self : AnomalyDetector) : AnomalyDetector :=
  {| s := s self; volumes := volumes self; prices := prices self;
     last_alert_ts := last_alert_ts self; last_minute_ts := b |}.

Definition volumes_append (x : float) (self : AnomalyDetector) : AnomalyDetector :=
  {| s := s self; volumes := deque_append (volumes self) x; prices := prices self;
     last_alert_ts := last_alert_ts self; last_minute_ts := last_minute_ts self |}.

Definition prices_append (x : float) (self : AnomalyDetector) : AnomalyDetector :=
  {| s := s self; volumes := volumes self; prices := deque_append (prices self) x;
     last_alert_ts := last_alert_ts self; last_minute_ts := last_minute_ts self |}.

Definition set_last_alert_ts (a : AlertTs) (self : AnomalyDetector) : AnomalyDetector :=
  {| s := s self; volumes := volumes self; prices := prices self;
     last_alert_ts := a; last_minute_ts := last_minute_ts self |}.

(** [self.last_minute_ts == minute_bucket]: [None] equals no int. *)
Definition same_minute (last : option Z) (minute_bucket : Z) : bool :=
  match last with
  | Some m => m =? minute_bucket
  | None => false
  end.

(** [max(5, int(self.s.volume_window * 0.3))]. *)
Definition min_samples (settings : Settings) : result Z :=
  (f <- Py.int_mul (volume_window settings) 0.3%float ;;
   k <- Py.int_of_float f ;;
   Ok (Py.max 5 k))%result.

(** The block "Volume z-score" of [check], up to and without the append:
    the value of [vol_signal] before the cool-downs. *)
Definition volume_trigger (self : AnomalyDetector) (volume_sol : float) : result bool :=
  if (minute_volume_min (s self) <=? 0)%float
     || (minute_volume_min (s self) <=? volume_sol)%float
  then
    (ms <- _mean_std (volumes self) ;;
     let mean_v := fst ms in
     let std_v := snd ms in
     z <- (if (0 <? std_v)%float
           then Py.truediv (volume_sol - mean_v)%float std_v
           else Ok 0%float) ;;
     need <- min_samples (s self) ;;
     Ok ((need <=? deque_len (volumes self)) && (volume_zscore (s self) <=? z)%float))%result
  else Ok false.

(** [self.prices[0] if len(self.prices) > 0 else close_price]. *)
Definition baseline (self : AnomalyDetector) (close_price : float) : float :=
  hd close_price (items (prices self)).

(** The block "Price pct change vs baseline window" of [check], up to and
    without the append: the value of [price_signal] before the cool-downs. *)
Definition price_trigger (self : AnomalyDetector) (close_price : float) : result bool :=
  let baseline := baseline self close_price in
  if price_window (s self) <=? deque_len (prices self)
  then
    (pct <- (if negb (baseline =? 0)%float
             then (q <- Py.truediv (close_price - baseline)%float baseline ;;
                   Ok (q * 100)%float)
             else Ok 0%float) ;;
     Ok (price_pct_change (s self) <=? abs pct)%float)%result
  else Ok false.

(** [now - self.last_alert_ts[kind] < cooldown], with
    [cooldown = self.s.alert_cooldown_min * 60]. *)
Definition in_cooldown (settings : Settings) (now last : float) : bool :=
  Py.float_lt_int (now - last)%float (alert_cooldown_min settings * 60).

(** The block "Cooldowns" and what follows it: suppression, merge, the
    update of [last_alert_ts] and the returned dict. *)
Definition report (now : float) (vol_signal price_signal : bool) : Method Signals :=
  fun self =>
    let ts := last_alert_ts self in
    let vol_signal :=
      if vol_signal && in_cooldown (s self) now (ts_volume ts) then false else vol_signal in
    let price_signal :=
      if price_signal && in_cooldown (s self) now (ts_price ts) then false else price_signal in
    let merged := vol_signal && price_signal in
    let vol_signal := if merged then false else vol_signal in
    let price_signal := if merged then false else price_signal in
    let ts' :=
      if merged then mkAlertTs (ts_volume ts) (ts_price ts) now
      else if vol_signal then mkAlertTs now (ts_price ts) (ts_merged ts)
      else if price_signal then mkAlertTs (ts_volume ts) now (ts_merged ts)
      else ts in
    (set_last_alert_ts ts' self, Ok (mkSignals vol_signal price_signal merged)).

(** [AnomalyDetector.check]; [now] is what [time.time()] returns. *)
Definition check (now : float) (kline : Kline.t) : Method Signals :=
  (if negb (Kline.x kline) then ret no_signals
   else
     let close_time_ms := Kline.T kline in
     let minute_bucket := close_time_ms / 60000 in
     fun self =>
       if same_minute (last_minute_ts self) minute_bucket then ret no_signals self
       else
         (assign (set_last_minute_ts (Some minute_bucket)) ;;
          let close_price := Kline.c kline in
          let volume_sol := Kline.v kline in
          vol_signal <- eval (fun self => volume_trigger self volume_sol) ;;
          assign (volumes_append volume_sol) ;;
          price_signal <- eval (fun self => price_trigger self close_price) ;;
          assign (prices_append close_price) ;;
          report now vol_signal price_signal) self)%method.

(** ** [check] on the dict as it arrives

    [check] decodes the dict while it runs: [int(kline["T"])] before the
    de-duplication test, [float(kline["c"])] and [float(kline["v"])] after
    the minute has been recorded.  Each of them raises when the key is
    missing ([KeyError]) or the value does not convert ([TypeError],
    [ValueError], [OverflowError]). *)

(** A kline dict by what [check] gets out of it: [x] is the truth value of
    [kline.get("x", False)], [T] the outcome of [int(kline["T"])], [c] and
    [v] the outcomes of [float(kline["c"])] and [float(kline["v"])]. *)
Module RawKline.
Record t : Type := mk {
  x : bool;
  T : result Z;
  c : result float;
  v : result float
}.
End RawKline.

(** The dict of a kline whose fields all decode. *)
Definition raw_of (kline : Kline.t) : RawKline.t :=
  RawKline.mk (Kline.x kline) (Ok (Kline.T kline)) (Ok (Kline.c kline))
              (Ok (Kline.v kline)).

(** [AnomalyDetector.check] from the dict, the decoding included; [check]
    above is what it does when the three fields decode. *)
Definition check_raw (now : float) (kline : RawKline.t) : Method Signals :=
  (if negb (RawKline.x kline) then ret no_signals
   else
     fun self =>
       match RawKline.T kline with
       | Raise e => (self, Raise e)
       | Ok close_time_ms =>
           let minute_bucket := close_time_ms / 60000 in
           if same_minute (last_minute_ts self) minute_bucket then ret no_signals self
           else
             (assign (set_last_minute_ts (Some minute_bucket)) ;;
              close_price <- eval (fun _ => RawKline.c kline) ;;
              volume_sol <- eval (fun _ => RawKline.v kline) ;;
              vol_signal <- eval (fun self => volume_trigger self volume_sol) ;;
              assign (volumes_append volume_sol) ;;
              price_signal <- eval (fun self => price_trigger self close_price) ;;
              assign (prices_append close_price) ;;
              report now vol_signal price_signal) self
       end)%method.

(** ** [ws_loop]: the back-off of the reconnect loop

    [backoff] is assigned at three places only: [1.0] before the loop, [1.0]
    right after [ws_connect] succeeds, and [min(backoff * 2, 60.0)] after the
    sleep that ends every pass.  The message handling and the REST fallback
    neither read nor write it; what matters of a pass is how its [try] block
    went and whether the [except] handler let an exception out. *)

Inductive Attempt : Type :=
| ConnectFailed (handler_raised : bool)
    (* an exception before [backoff = 1.0]: no connection; the handler ran *)
| StreamEnded
    (* connected; the message loop ended on a break or with the stream *)
| StreamRaised (handler_raised : bool).
    (* connected; an exception inside the message loop; the handler ran *)

Definition connected (a : Attempt) : bool :=
  match a with
  | ConnectFailed _ => false
  | StreamEnded | StreamRaised _ => true
  end.

Definition handler_raised (a : Attempt) : bool :=
  match a with
  | ConnectFailed r | StreamRaised r => r
  | StreamEnded => false
  end.

(** One pass through the body of [while True], from the value of [backoff]
    on entry: [None] when an exception leaves the loop, otherwise the argument
    of [asyncio.sleep] and the value of [backoff] after the pass. *)
Definition ws_pass (backoff : float) (a : Attempt) : option (float * float) :=
  let backoff := if connected a then 1%float else backoff in
  if handler_raised a then None
  else Some (backoff, Py.min (backoff * 2)%float 60%float).

(** The sleeps of the loop over the attempts [atts], from [backoff]. *)
Fixpoint ws_passes (backoff : float) (atts : list Attempt) : list float :=
  match atts with
  | [] => []
  | a :: rest =>
      match ws_pass backoff a with
      | None => []
      | Some (slept, backoff') => slept :: ws_passes backoff' rest
      end
  end.

(** [ws_loop]: [backoff = 1.0], then the loop. *)
Definition ws_loop (atts : list Attempt) : list float :=
  ws_passes 1%float atts.

(** The values [backoff] can take. *)
Definition backoff_values : list float :=
  [1; 2; 4; 8; 16; 32; 60]%float.

(** ** Driving the detector

    [ws_loop] hands the final klines to [check] one at a time, each call on
    the detector the previous one left.  [feed] does that for a list of
    clock readings and klines and collects the outcomes. *)

Fixpoint feed (self : AnomalyDetector) (calls : list (float * Kline.t))
  : AnomalyDetector * list (result Signals) :=
  match calls with
  | [] => (self, [])
  | (now, kline) :: rest =>
      let (self1, out) := check now kline self in
      let (self2, outs) := feed self1 rest in
      (self2, out :: outs)
  end.

(** The same for dicts as they arrive. *)
Fixpoint feed_raw (self : AnomalyDetector) (calls : list (float * RawKline.t))
  : AnomalyDetector * list (result Signals) :=
  match calls with
  | [] => (self, [])
  | (now, kline) :: rest =>
      let (self1, out) := check_raw now kline self in
      let (self2, outs) := feed_raw self1 rest in
      (self2, out :: outs)
  end.

(** A final one-minute kline that closes in minute [i]. *)
Definition minute_kline (i : Z) (close vol : float) : Kline.t :=
  Kline.mk (i * 60000 + 59999) close vol true.

(** The clock reading at which the kline of minute [i] is evaluated. *)
Definition clock (i : Z) : float :=
  match Py.float_of_int (1700000000 + 60 * i) with
  | Ok t => t
  | Raise _ => 0%float
  end.

(** The detector [__init__] builds from the default settings. *)
Definition detector0 : AnomalyDetector :=
  {| s := default_settings;
     volumes := mkDeque 30 [];
     prices := mkDeque 11 [];
     last_alert_ts := mkAlertTs 0 0 0;
     last_minute_ts := None |}.

(** Thirty quiet minutes: the close stays at 50, the volume alternates
    between 100 and 102. *)
Definition quiet_calls : list (float * Kline.t) :=
  map (fun i : nat =>
         let m := Z.of_nat i in
         (clock m, minute_kline m 50 (if Z.even m then 100 else 102)%float))
      (seq 1 30).

(** The detector after the thirty quiet minutes. *)
Definition warm : AnomalyDetector := fst (feed detector0 quiet_calls).

(** Whether [max(5, int(n * 0.3))] is [max(5, floor(3 n / 10))], for the
    window sizes up to [n]. *)
Definition min_samples_is_floor (n : Z) : bool :=
  match (f <- Py.int_mul n 0.3%float ;; k <- Py.int_of_float f ;; Ok (Py.max 5 k))%result with
  | Ok k => k =? Z.max 5 (3 * n / 10)
  | Raise _ => false
  end.

Fixpoint min_samples_is_floor_upto (n : nat) : bool :=
  min_samples_is_floor (Z.of_nat n)
  && match n with
     | O => true
     | S m => min_samples_is_floor_upto m
     end.

(** The default settings with a minimum minute volume of 50 SOL, and the
    detector [__init__] builds from them. *)
Definition floor_settings : Settings :=
  {| telegram_token := EmptyString;
     telegram_chat_id := EmptyString;
     symbol := "SOLUSDT"%string;
     kline_interval := "1m"%string;
     volume_window := 30;
     volume_zscore := 3%float;
     minute_volume_min := 50%float;
     price_window := 10;
     price_pct_change := 2%float;
     alert_cooldown_min := 10;
     merge_signals_window := 1 |}.

Definition floor_detector : AnomalyDetector :=
  {| s := floor_settings;
     volumes := mkDeque 30 [];
     prices := mkDeque 11 [];
     last_alert_ts := mkAlertTs 0 0 0;
     last_minute_ts := None |}.

(** A volume window of [window] minutes and a z-score threshold of
    [zscore], the rest as by default; the detector [__init__] builds from
    that, and [n] minutes of unchanged close 50 and volume [vol]. *)
Definition window_settings (window : Z) (zscore : float) : Settings :=
  {| telegram_token := EmptyString;
     telegram_chat_id := EmptyString;
     symbol := "SOLUSDT"%string;
     kline_interval := "1m"%string;
     volume_window := window;
     volume_zscore := zscore;
     minute_volume_min := 0%float;
     price_window := 10;
     price_pct_change := 2%float;
     alert_cooldown_min := 10;
     merge_signals_window := 1 |}.

Definition window_detector (window : Z) (zscore : float) : AnomalyDetector :=
  {| s := window_settings window zscore;
     volumes := mkDeque window [];
     prices := mkDeque 11 [];
     last_alert_ts := mkAlertTs 0 0 0;
     last_minute_ts := None |}.

Definition flat_calls (vol : float) (n : nat) : list (float * Kline.t) :=
  map (fun i : nat => (clock (Z.of_nat i), minute_kline (Z.of_nat i) 50 vol)) (seq 1 n).

(** Five minutes of volume 100 into a window of five, threshold zero. *)
Definition flat_window : AnomalyDetector :=
  fst (feed (window_detector 5 0) (flat_calls 100 5)).

(** Six minutes of volume 0.1 into a window of six, threshold one. *)
Definition tenths_window : AnomalyDetector :=
  fst (feed (window_detector 6 1) (flat_calls 0.1 6)).

(** Thirty minutes of volume 100 into the default window of thirty. *)
Definition flat_default_window : AnomalyDetector :=
  fst (feed detector0 (flat_calls 100 30)).

(** Two minutes in a row on which both the volume and the price jump, right
    after the thirty quiet ones; the clock readings are 60 seconds apart. *)
Definition spike_calls : list (float * Kline.t) :=
  [(clock 31, minute_kline 31 55 5000); (clock 32, minute_kline 32 60 50000)].

(** The detector with another value under the key ["merged"]. *)
Definition set_ts_merged (t : float) (self : AnomalyDetector) : AnomalyDetector :=
  set_last_alert_ts
    (mkAlertTs (ts_volume (last_alert_ts self)) (ts_price (last_alert_ts self)) t) self.

(** What [check] leaves in [last_alert_ts] when it returns [out] at [now]. *)
Definition record_alert (now : float) (out : Signals) (ts : AlertTs) : AlertTs :=
  if merged out then mkAlertTs (ts_volume ts) (ts_price ts) now
  else if volume out then mkAlertTs now (ts_price ts) (ts_merged ts)
  else if price out then mkAlertTs (ts_volume ts) now (ts_merged ts)
  else ts.

(** Twelve minutes in a row: the close is 100, then 101 for ten minutes,
    then 102.5; the volume stays at 100. *)
Definition drift_closes : list float :=
  [100; 101; 101; 101; 101; 101; 101; 101; 101; 101; 101; 102.5]%float.

Definition drift_calls : list (float * Kline.t) :=
  map (fun ic : nat * float =>
         (clock (Z.of_nat (fst ic)), minute_kline (Z.of_nat (fst ic)) (snd ic) 100))
      (combine (seq 1 12) drift_closes).

(** The detector after the first eleven of them. *)
Definition drift_eleven : AnomalyDetector :=
  fst (feed detector0 (firstn 11 drift_calls)).

(** Every call of [calls] is a final kline of a new minute on which [check]
    returns. *)
Fixpoint evaluated (self : AnomalyDetector) (calls : list (float * Kline.t)) : Prop :=
  match calls with
  | [] => True
  | (now, kline) :: rest =>
      Kline.x kline = true
      /\ same_minute (last_minute_ts self) (Kline.T kline / 60000) = false
      /\ (exists out, snd (check now kline self) = Ok out)
      /\ evaluated (fst (check now kline self)) rest
  end.

(** The closes of the klines of [calls], in order. *)
Definition closes (calls : list (float * Kline.t)) : list float :=
  map (fun call => Kline.c (snd call)) calls.

(** [d.append] for each element of [l] in turn. *)
Definition deque_extend (d : Deque) (l : list float) : Deque :=
  fold_left deque_append l d.

(** The last [m] elements of [l], oldest first; all of [l] when it has no
    more than [m]. *)
Definition last_items (m : Z) (l : list float) : list float :=
  skipn (length l - Z.to_nat m) l.

(** The positive zero or the NaN: what the deviations of identical values,
    their squares and the sums of those are. *)
Definition zero_or_nan (f : float) : Prop := f = 0%float \/ f = nan.

(** No returned dict of [outs] has the flag [flag] or [merged] set. *)
Definition silent (flag : Signals -> bool) (outs : list (result Signals)) : Prop :=
  Forall (fun r => forall out, r = Ok out -> flag out = false /\ merged out = false) outs.

(** The windows respect their capacities, and the capacities are the ones
    [__init__] derives from the settings. *)
Definition well_formed (self : AnomalyDetector) : Prop :=
  maxlen (volumes self) = volume_window (s self)
  /\ maxlen (prices self) = price_window (s self) + 1
  /\ 0 <= deque_len (volumes self) <= maxlen (volumes self)
  /\ 0 <= deque_len (prices self) <= maxlen (prices self).

(** The calls of a run whose kline is final. *)
Definition final_calls (calls : list (float * Kline.t)) : list (float * Kline.t) :=
  filter (fun call => Kline.x (snd call)) calls.

(** The outcomes of the final klines of a run, with the all-false dict put
    back at the places of the klines that are not final. *)
Fixpoint pad_non_final (calls : list (float * Kline.t)) (outs : list (result Signals))
  : list (result Signals) :=
  match calls with
  | [] => []
  | (_, kline) :: rest =>
      if Kline.x kline
      then match outs with
           | out :: outs' => out :: pad_non_final rest outs'
           | [] => []
           end
      else Ok no_signals :: pad_non_final rest outs
  end.

(** A sign that is not the minus sign of a number below zero: what a square
    root has. *)
Definition not_below_zero (x : spec_float) : Prop :=
  match x with
  | S754_zero _ | S754_nan => True
  | S754_infinity sign | S754_finite sign _ _ => sign = false
  end.

(** Two minutes into the default detector: a volume of 1e200, then none. *)
Definition huge_calls : list (float * Kline.t) :=
  [(clock 1, minute_kline 1 50 1e200); (clock 2, minute_kline 2 50 0)].

(** The detector after them: its volume window is [1e200, 0.0]. *)
Definition poisoned : AnomalyDetector := fst (feed detector0 huge_calls).

(** Two detectors that differ at most in the entry ["merged"] of
    [last_alert_ts]. *)
Definition same_but_ts_merged (a b : AnomalyDetector) : Prop :=
  s a = s b /\ volumes a = volumes b /\ prices a = prices b
  /\ last_minute_ts a = last_minute_ts b
  /\ ts_volume (last_alert_ts a) = ts_volume (last_alert_ts b)
  /\ ts_price (last_alert_ts a) = ts_price (last_alert_ts b).

(** The three minutes after the volume alert of minute 31: high volumes
    again, 60, 120 and 180 seconds after it. *)
Definition after_volume_alert : list (float * Kline.t) :=
  [(clock 32, minute_kline 32 50 50000);
   (clock 33, minute_kline 33 50 500000);
   (clock 34, minute_kline 34 50 5000000)].

(** The same after a price alert in minute 31, with higher and higher
    closes. *)
Definition after_price_alert : list (float * Kline.t) :=
  [(clock 32, minute_kline 32 60 100);
   (clock 33, minute_kline 33 70 102);
   (clock 34, minute_kline 34 80 100)].

(** [n] minutes of unchanged volume 100 and close [close]. *)
Definition priced_calls (close : float) (n : nat) : list (float * Kline.t) :=
  map (fun i : nat => (clock (Z.of_nat i), minute_kline (Z.of_nat i) close 100)) (seq 1 n).

(** The default detector after ten minutes with a close of zero. *)
Definition zero_closes : AnomalyDetector := fst (feed detector0 (priced_calls 0 10)).

(** The detector after the thirty quiet minutes and one more whose volume
    and close are both NaN. *)
Definition after_nan : AnomalyDetector :=
  fst (check (clock 31) (minute_kline 31 nan nan) warm).

(** ** [ws_loop]: messages, the detector and the alerts

    The loop again, now with what goes through it.  What the outside world
    does is an input: the messages a connection delivers, what the clock reads
    when [check] asks, whether an alert can be formatted and sent, and what
    the REST fallback returns.  What the loop does is the list of its events:
    the alerts it has sent and the sleeps between its passes. *)

(** A websocket message.  For a text message: how decoding went
    ([json.loads] and [payload.get("k") or {}], [Raise] when they raise,
    [Ok None] when the payload carries no kline), the clock reading for
    [check], and whether [format_alert_html] and [send_telegram] return
    ([true]) or raise.  The kline of a text message is one whose fields
    decode; what [check] does with a dict whose fields do not is
    [check_raw] above. *)
Inductive Message : Type :=
| Text (payload : result (option Kline.t)) (now : float) (send_ok : bool)
| ErrorMsg
| CloseMsg
| OtherMsg.

(** What [fetch_latest_rest] found in the last row of the REST answer:
    [int(o[6])], [o[4]] and [o[5]] once decoded. *)
Record Row : Type := mkRow {
  row_T : Z;
  row_c : float;
  row_v : float
}.

(** The kline [fetch_latest_rest] builds from a row: ["x"] is [True]. *)
Definition rest_kline (o : Row) : Kline.t :=
  Kline.mk (row_T o) (row_c o) (row_v o) true.

Inductive Event : Type :=
| Alert (kline : Kline.t) (signals : Signals)
| Sleep (seconds : float).

(** [any(signals.values())]. *)
Definition any_signal (signals : Signals) : bool :=
  volume signals || price signals || merged signals.

(** [signals = detector.check(k)], then the alert when any flag is set:
    the four lines that follow [if k.get("x", False):] in the message loop
    and [if k:] in the handler.  [None] stands for an exception, out of
    [check] or out of formatting and sending. *)
Definition evaluate_and_notify (now : float) (send_ok : bool) (k : Kline.t)
           (detector : AnomalyDetector) : AnomalyDetector * option (list Event) :=
  match check now k detector with
  | (detector', Raise _) => (detector', None)
  | (detector', Ok signals) =>
      if any_signal signals
      then (detector', if send_ok then Some [Alert k signals] else None)
      else (detector', Some [])
  end.

(** [async for msg in ws]: the detector and the alerts once the loop is
    left, and whether it was left by an exception. *)
Fixpoint message_loop (msgs : list Message) (detector : AnomalyDetector)
  : AnomalyDetector * list Event * bool :=
  match msgs with
  | [] => (detector, [], false)
  | Text (Raise _) _ _ :: _ => (detector, [], true)
  | Text (Ok None) _ _ :: rest => message_loop rest detector
  | Text (Ok (Some k)) now send_ok :: rest =>
      if Kline.x k
      then match evaluate_and_notify now send_ok k detector with
           | (detector', None) => (detector', [], true)
           | (detector', Some alerts) =>
               let '(detector'', alerts', raised) := message_loop rest detector' in
               (detector'', alerts ++ alerts', raised)
           end
      else message_loop rest detector
  | ErrorMsg :: _ => (detector, [], false)
  | CloseMsg :: _ => (detector, [], false)
  | OtherMsg :: rest => message_loop rest detector
  end.

(** One pass of [while True] as the outside world shapes it: whether
    [ws_connect] succeeds, the messages of the connection, and what the
    fallback finds should the handler run (with the clock reading and the
    fate of an alert there). *)
Record Pass : Type := mkPass {
  connects : bool;
  messages : list Message;
  fallback : option (Row * float * bool)
}.

(** The [try] block of a pass: the value of [backoff] after it, the
    detector, the alerts, and whether an exception reached [except]. *)
Definition try_block (p : Pass) (backoff : float) (detector : AnomalyDetector)
  : float * (AnomalyDetector * list Event * bool) :=
  if connects p
  then (1%float, message_loop (messages p) detector)
  else (backoff, (detector, [], true)).

(** The [except] block: one kline from the fallback, if there is one. *)
Definition handler (p : Pass) (detector : AnomalyDetector)
  : AnomalyDetector * option (list Event) :=
  match fallback p with
  | None => (detector, Some [])
  | Some (o, now, send_ok) => evaluate_and_notify now send_ok (rest_kline o) detector
  end.

(** The state of the loop between two passes. *)
Record Loop : Type := mkLoop {
  loop_backoff : float;
  loop_detector : AnomalyDetector
}.

(** One pass: the events it adds, and the state for the next pass, or
    [None] when an exception leaves the handler and with it [ws_loop]. *)
Definition ws_iteration (p : Pass) (st : Loop) : list Event * option Loop :=
  let '(backoff, (detector, alerts, raised)) :=
    try_block p (loop_backoff st) (loop_detector st) in
  let '(detector', handled) :=
    if raised then handler p detector else (detector, Some []) in
  match handled with
  | None => (alerts, None)
  | Some alerts' =>
      (alerts ++ alerts' ++ [Sleep backoff],
       Some (mkLoop (Py.min (backoff * 2)%float 60%float) detector'))
  end.

(** The passes in turn, for as long as the loop lives. *)
Fixpoint ws_iterations (ps : list Pass) (st : Loop) : list Event * option Loop :=
  match ps with
  | [] => ([], Some st)
  | p :: rest =>
      match ws_iteration p st with
      | (events, None) => (events, None)
      | (events, Some st') =>
          let '(events', final) := ws_iterations rest st' in
          (events ++ events', final)
      end
  end.

(** [ws_loop] from its first line: the detector is built, [backoff] is
    [1.0]; an exception out of [__init__] ends it before the loop. *)
Definition ws_loop_run (settings : Settings) (ps : list Pass)
  : result (list Event * option Loop) :=
  (detector <- init settings ;;
   Ok (ws_iterations ps (mkLoop 1%float detector)))%result.

(** The sleeps among the events, in order. *)
Fixpoint sleeps (events : list Event) : list float :=
  match events with
  | [] => []
  | Sleep seconds :: rest => seconds :: sleeps rest
  | Alert _ _ :: rest => sleeps rest
  end.

(** The alerts among the events, in order. *)
Fixpoint alerts_of (events : list Event) : list (Kline.t * Signals) :=
  match events with
  | [] => []
  | Alert k signals :: rest => (k, signals) :: alerts_of rest
  | Sleep _ :: rest => alerts_of rest
  end.

(** How a pass ends, in the terms of the back-off model above. *)
Definition attempt_of (p : Pass) (st : Loop) : Attempt :=
  let '(_, (detector, _, raised)) :=
    try_block p (loop_backoff st) (loop_detector st) in
  let handler_raises :=
    match snd (handler p detector) with
    | None => true
    | Some _ => false
    end in
  if connects p
  then (if raised then StreamRaised handler_raises else StreamEnded)
  else ConnectFailed handler_raises.

Fixpoint attempts_of (ps : list Pass) (st : Loop) : list Attempt :=
  match ps with
  | [] => []
  | p :: rest =>
      attempt_of p st
      :: match snd (ws_iteration p st) with
         | None => []
         | Some st' => attempts_of rest st'
         end
  end.

(** Exactly one of the three flags is set. *)
Definition one_signal (signals : Signals) : bool :=
  match volume signals, price signals, merged signals with
  | true, false, false | false, true, false | false, false, true => true
  | _, _, _ => false
  end.

(** What the loop may send: an alert for a final kline, with exactly one
    flag. *)
Definition sound_alert (a : Kline.t * Signals) : Prop :=
  Kline.x (fst a) = true /\ one_signal (snd a) = true.

(** The messages on which the message loop executes [break]. *)
Definition breaks (msg : Message) : bool :=
  match msg with
  | ErrorMsg | CloseMsg => true
  | Text _ _ _ | OtherMsg => false
  end.

(** The klines a connection offers, with the clock readings: those of its
    text messages, up to the first message that ends the connection. *)
Fixpoint offered (msgs : list Message) : list (float * Kline.t) :=
  match msgs with
  | [] => []
  | Text (Ok (Some k)) now _ :: rest => (now, k) :: offered rest
  | Text (Ok None) _ _ :: rest => offered rest
  | OtherMsg :: rest => offered rest
  | Text (Raise _) _ _ :: _ => []
  | ErrorMsg :: _ => []
  | CloseMsg :: _ => []
  end.

(** The klines of a run whose outcome has a flag set, each with its
    outcome. *)
Fixpoint flagged (calls : list (float * Kline.t)) (outs : list (result Signals))
  : list (Kline.t * Signals) :=
  match calls, outs with
  | (_, k) :: calls', Ok signals :: outs' =>
      if any_signal signals
      then (k, signals) :: flagged calls' outs'
      else flagged calls' outs'
  | _ :: calls', Raise _ :: outs' => flagged calls' outs'
  | _, _ => []
  end.

(** An outage: two refused connections, the second with a kline from the
    fallback; a connection that delivers a kline and is closed; a connection
    whose first message cannot be decoded; a refused connection. *)
Definition outage : list Pass :=
  [mkPass false [] None;
   mkPass false [] (Some (mkRow 119999 50 100, clock 1, true));
   mkPass true
     [Text (Ok (Some (minute_kline 2 50 100))) (clock 2) true; OtherMsg; CloseMsg]
     None;
   mkPass true [Text (Raise ValueError) (clock 3) true] None;
   mkPass false [] None].

(** A connection after the thirty quiet minutes: the spike of minute 31, a
    message without a kline, the kline of minute 32 while it is still open,
    the same once closed, then a close message and what nobody reads. *)
Definition spike_messages : list Message :=
  [Text (Ok (Some (minute_kline 31 55 5000))) (clock 31) true;
   Text (Ok None) (clock 31) true;
   Text (Ok (Some (Kline.mk (32 * 60000 + 59999) 55 10 false))) (clock 32) true;
   OtherMsg;
   Text (Ok (Some (minute_kline 32 55 100))) (clock 32) true;
   CloseMsg;
   Text (Ok (Some (minute_kline 33 70 90000))) (clock 33) true].

(** Two connections in a row, each ended by the server. *)
Definition two_connections : list Pass :=
  [mkPass true
     [Text (Ok (Some (minute_kline 31 50 100))) (clock 31) true; CloseMsg] None;
   mkPass true
     [Text (Ok (Some (minute_kline 32 55 5000))) (clock 32) true; ErrorMsg] None].

(** The state of the loop after them, from the detector of the thirty
    quiet minutes. *)
Definition after_two_connections : Loop :=
  match snd (ws_iterations two_connections (mkLoop 1 warm)) with
  | Some st => st
  | None => mkLoop 1 warm
  end.

(** The detector after the first eight of the quiet minutes: each window
    holds eight values, one fewer than the nine samples the volume block
    asks for and two fewer than the ten closes the price block asks for. *)
Definition eight_quiet : AnomalyDetector :=
  fst (feed detector0 (firstn 8 quiet_calls)).

(** The detector after the first ten of them: enough for both blocks. *)
Definition ten_quiet : AnomalyDetector :=
  fst (feed detector0 (firstn 10 quiet_calls)).

(** The detector with the floor of 50 SOL after the thirty quiet minutes:
    its volume window is full. *)
Definition floor_warm : AnomalyDetector :=
  fst (feed floor_detector quiet_calls).

(** A final kline of minute [i] whose volume does not parse. *)
Definition bad_volume_kline (i : Z) : RawKline.t :=
  RawKline.mk true (Ok (i * 60000 + 59999)) (Ok 50%float) (Raise ValueError).

(** The outcome of a call on the kline [kline] while [_mean_std] raises [e]
    on the volume window: the all-false dict, or an exception, which is [e]
    or comes from decoding the kline. *)
Definition no_alert_while_failing (e : PyExc) (call : float * RawKline.t)
           (r : result Signals) : Prop :=
  r = Ok no_signals
  \/ exists e', r = Raise e'
       /\ (e' = e
           \/ RawKline.T (snd call) = Raise e'
           \/ RawKline.c (snd call) = Raise e'
           \/ RawKline.v (snd call) = Raise e').

(** Four klines offered to the detector whose volume window is
    [1e200, 0.0]: one that decodes, one whose volume does not parse, one
    without the key ["T"], one that is not final. *)
Definition mixed_calls : list (float * RawKline.t) :=
  [(clock 3, raw_of (minute_kline 3 50 100));
   (clock 4, bad_volume_kline 4);
   (clock 5, RawKline.mk true (Raise KeyError) (Ok 50%float) (Ok 100%float));
   (clock 6, RawKline.mk false (Ok (6 * 60000 + 59999)) (Ok 50%float) (Ok 100%float));
   (clock 7, raw_of (minute_kline 7 50 100))].

(** * Properties *)

(** ** Binary64 comparisons and the arithmetic of zero *)

Lemma SFcompare_Lt_swap (a b : spec_float) :
  SFcompare a b = Some Lt -> SFcompare b a = Some Gt.
Proof.
  destruct a as [sa|sa| |sa ma ea], b as [sb|sb| |sb mb eb]; simpl;
    try destruct sa; try destruct sb; simpl; try congruence.
  all: rewrite (Z.compare_antisym ea eb);
    destruct (ea ?= eb)%Z; simpl; try congruence;
    pose proof (Pos.compare_cont_antisym ma mb Eq) as H; simpl in H; rewrite <- H;
    destruct (Pos.compare_cont Eq ma mb); simpl; congruence.
Qed.

(** [a < b] excludes [a >= b]. *)
Lemma ltb_leb_false (a b : float) :
  (a <? b)%float = true -> (b <=? a)%float = false.
Proof.
  rewrite ltb_spec, leb_spec. unfold SFltb, SFleb.
  destruct (SFcompare (Prim2SF a) (Prim2SF b)) as [[]|] eqn:E; try discriminate.
  intros _. rewrite (SFcompare_Lt_swap _ _ E). reflexivity.
Qed.

(** [a < b] excludes [b == a]. *)
Lemma ltb_eqb_false (a b : float) :
  (a <? b)%float = true -> (b =? a)%float = false.
Proof.
  rewrite ltb_spec, eqb_spec. unfold SFltb, SFeqb.
  destruct (SFcompare (Prim2SF a) (Prim2SF b)) as [[]|] eqn:E; try discriminate.
  intros _. rewrite (SFcompare_Lt_swap _ _ E). reflexivity.
Qed.

(** ** The shape of [check] *)

Lemma check_not_final now kline self :
  Kline.x kline = false -> check now kline self = (self, Ok no_signals).
Proof. intros H. unfold check. rewrite H. reflexivity. Qed.

Lemma check_same_minute now kline self :
  Kline.x kline = true ->
  same_minute (last_minute_ts self) (Kline.T kline / 60000) = true ->
  check now kline self = (self, Ok no_signals).
Proof. intros Hx Hm. unfold check. rewrite Hx. simpl. rewrite Hm. reflexivity. Qed.

(** On a final kline of a new minute, [check] runs its four blocks in order;
    both triggers read the windows as they were on entry. *)
Lemma check_new_minute now kline self :
  Kline.x kline = true ->
  same_minute (last_minute_ts self) (Kline.T kline / 60000) = false ->
  check now kline self =
    let self1 := set_last_minute_ts (Some (Kline.T kline / 60000)) self in
    match volume_trigger self (Kline.v kline) with
    | Raise e => (self1, Raise e)
    | Ok vol_signal =>
        let self2 := volumes_append (Kline.v kline) self1 in
        match price_trigger self (Kline.c kline) with
        | Raise e => (self2, Raise e)
        | Ok price_signal =>
            report now vol_signal price_signal (prices_append (Kline.c kline) self2)
        end
    end.
Proof.
  intros Hx Hm. unfold check. rewrite Hx. simpl. rewrite Hm.
  unfold bind, assign, eval. simpl.
  change (volume_trigger (set_last_minute_ts (Some (Kline.T kline / 60000)) self))
    with (volume_trigger self).
  destruct (volume_trigger self (Kline.v kline)) as [vol|e]; [|reflexivity].
  change (price_trigger
            (volumes_append (Kline.v kline)
               (set_last_minute_ts (Some (Kline.T kline / 60000)) self)))
    with (price_trigger self).
  destruct (price_trigger self (Kline.c kline)) as [pr|e]; reflexivity.
Qed.

(** The dict [report] returns, as a function of the two triggers and of the
    two cool-down tests. *)
Lemma report_signals now vol_signal price_signal self :
  snd (report now vol_signal price_signal self) =
    let vol := vol_signal && negb (in_cooldown (s self) now (ts_volume (last_alert_ts self))) in
    let pr := price_signal && negb (in_cooldown (s self) now (ts_price (last_alert_ts self))) in
    Ok (mkSignals (vol && negb pr) (pr && negb vol) (vol && pr)).
Proof.
  unfold report. simpl.
  destruct vol_signal, price_signal,
    (in_cooldown (s self) now (ts_volume (last_alert_ts self))),
    (in_cooldown (s self) now (ts_price (last_alert_ts self))); reflexivity.
Qed.

(** [report] touches [last_alert_ts] only: windows, settings and minute
    marker stay. *)
Lemma report_frame now vol_signal price_signal self :
  let self' := fst (report now vol_signal price_signal self) in
  s self' = s self /\ volumes self' = volumes self /\ prices self' = prices self
  /\ last_minute_ts self' = last_minute_ts self.
Proof. unfold report. simpl. auto. Qed.

(** The price block never raises: its only division is guarded by the very
    test that makes [/] raise. *)
Lemma price_trigger_returns self close_price :
  exists b, price_trigger self close_price = Ok b.
Proof.
  unfold price_trigger.
  destruct (price_window (s self) <=? deque_len (prices self)); [|eauto].
  unfold Py.truediv.
  destruct (baseline self close_price =? 0)%float; simpl; eauto.
Qed.

(** Whatever [check] returns on a final kline of a new minute, the two
    windows have received the kline's volume and close, and the minute is
    recorded. *)
Lemma check_appends now kline self self' out :
  Kline.x kline = true ->
  same_minute (last_minute_ts self) (Kline.T kline / 60000) = false ->
  check now kline self = (self', Ok out) ->
  volumes self' = deque_append (volumes self) (Kline.v kline)
  /\ prices self' = deque_append (prices self) (Kline.c kline)
  /\ last_minute_ts self' = Some (Kline.T kline / 60000)
  /\ s self' = s self.
Proof.
  intros Hx Hm H. rewrite (check_new_minute _ _ _ Hx Hm) in H. simpl in H.
  destruct (volume_trigger self (Kline.v kline)) as [vol|e]; [|discriminate].
  destruct (price_trigger self (Kline.c kline)) as [pr|e]; [|discriminate].
  pose proof (report_frame now vol pr
                (prices_append (Kline.c kline)
                   (volumes_append (Kline.v kline)
                      (set_last_minute_ts (Some (Kline.T kline / 60000)) self)))) as F.
  rewrite H in F. simpl in F. tauto.
Qed.

(** The signals of a returning [check] on a final kline of a new minute. *)
Lemma check_signals now kline self self' out :
  Kline.x kline = true ->
  same_minute (last_minute_ts self) (Kline.T kline / 60000) = false ->
  check now kline self = (self', Ok out) ->
  exists vol_signal price_signal,
    volume_trigger self (Kline.v kline) = Ok vol_signal
    /\ price_trigger self (Kline.c kline) = Ok price_signal
    /\ let vol := vol_signal && negb (in_cooldown (s self) now (ts_volume (last_alert_ts self))) in
       let pr := price_signal && negb (in_cooldown (s self) now (ts_price (last_alert_ts self))) in
       out = mkSignals (vol && negb pr) (pr && negb vol) (vol && pr).
Proof.
  intros Hx Hm H. rewrite (check_new_minute _ _ _ Hx Hm) in H. simpl in H.
  destruct (volume_trigger self (Kline.v kline)) as [vol|e]; [|discriminate].
  destruct (price_trigger self (Kline.c kline)) as [pr|e]; [|discriminate].
  exists vol, pr. split; [reflexivity|]. split; [reflexivity|].
  apply (f_equal snd) in H. rewrite report_signals in H. simpl in H.
  injection H as H. symmetry. exact H.
Qed.

(** A [check] that returns did one of three things. *)
Lemma check_cases now kline self self' out :
  check now kline self = (self', Ok out) ->
  out = no_signals
  \/ (Kline.x kline = true
      /\ same_minute (last_minute_ts self) (Kline.T kline / 60000) = false).
Proof.
  intros H.
  destruct (Kline.x kline) eqn:Hx.
  - destruct (same_minute (last_minute_ts self) (Kline.T kline / 60000)) eqn:Hm.
    + rewrite (check_same_minute _ _ _ Hx Hm) in H. left. congruence.
    + right. auto.
  - rewrite (check_not_final _ _ _ Hx) in H. left. congruence.
Qed.

(** ** The capacities of the windows *)

Lemma deque_append_within (d : Deque) (x : float) :
  0 <= deque_len d <= maxlen d ->
  maxlen (deque_append d x) = maxlen d
  /\ 0 <= deque_len (deque_append d x) <= maxlen d.
Proof.
  unfold deque_len, deque_append. simpl. intros Hlen.
  split; [reflexivity|].
  rewrite length_app. simpl.
  destruct (maxlen d <? Z.of_nat (length (items d) + 1)) eqn:E.
  - destruct (items d) as [|y l]; simpl in *; [lia|].
    rewrite length_app. simpl. lia.
  - apply Z.ltb_ge in E. rewrite length_app. simpl. lia.
Qed.

Lemma deque_extend_snoc (d : Deque) (l : list float) (x : float) :
  deque_extend d (l ++ [x]) = deque_append (deque_extend d l) x.
Proof. unfold deque_extend. rewrite fold_left_app. reflexivity. Qed.

Lemma deque_extend_maxlen (d : Deque) (l : list float) :
  maxlen (deque_extend d l) = maxlen d.
Proof.
  unfold deque_extend. revert d.
  induction l as [|x l IH]; intros d; [reflexivity|].
  simpl. rewrite IH. reflexivity.
Qed.

Lemma tl_skipn_snoc (k : nat) (l : list float) (x : float) :
  (k <= length l)%nat -> tl (skipn k l ++ [x]) = skipn (S k) (l ++ [x]).
Proof.
  revert l. induction k as [|k IH]; intros l Hk.
  - destruct l; reflexivity.
  - destruct l as [|y l]; [simpl in Hk; lia|].
    simpl in Hk. change (skipn (S k) (y :: l)) with (skipn k l).
    rewrite IH by lia. reflexivity.
Qed.

(** [d.append(x)] on a deque within its capacity: the window afterwards is
    the last [maxlen] of the old elements followed by [x]. *)
Lemma deque_append_items (d : Deque) (x : float) :
  deque_len d <= maxlen d ->
  items (deque_append d x) = last_items (maxlen d) (items d ++ [x])
  /\ maxlen (deque_append d x) = maxlen d.
Proof.
  unfold deque_len, deque_append, last_items. simpl. intros Hlen.
  split; [|reflexivity].
  rewrite length_app. simpl length.
  destruct (maxlen d <? Z.of_nat (length (items d) + 1)) eqn:E.
  - apply Z.ltb_lt in E.
    replace (length (items d) + 1 - Z.to_nat (maxlen d))%nat with 1%nat by lia.
    reflexivity.
  - apply Z.ltb_ge in E.
    replace (length (items d) + 1 - Z.to_nat (maxlen d))%nat with O by lia.
    reflexivity.
Qed.

Lemma last_items_length (m : Z) (l : list float) :
  Z.of_nat (length (last_items m l)) <= Z.max 0 m.
Proof. unfold last_items. rewrite length_skipn. lia. Qed.

Lemma last_items_snoc (m : Z) (l : list float) (x : float) :
  last_items m (last_items m l ++ [x]) = last_items m (l ++ [x]).
Proof.
  unfold last_items. rewrite !length_app, length_skipn. simpl length.
  destruct (Nat.le_gt_cases (length l) (Z.to_nat m)) as [H|H].
  - replace (length l - Z.to_nat m)%nat with O by lia. simpl skipn.
    f_equal. lia.
  - replace (length l - (length l - Z.to_nat m) + 1 - Z.to_nat m)%nat with 1%nat by lia.
    change (skipn 1 (skipn (length l - Z.to_nat m) l ++ [x]))
      with (tl (skipn (length l - Z.to_nat m) l ++ [x])).
    rewrite tl_skipn_snoc by lia. f_equal. lia.
Qed.

(** A deque within its capacity that is given the elements of [l] one by
    one holds the last [maxlen] of its old elements followed by [l]. *)
Lemma deque_extend_items_from (l : list float) (d : Deque) :
  deque_len d <= maxlen d ->
  items (deque_extend d l) = last_items (maxlen d) (items d ++ l)
  /\ deque_len (deque_extend d l) <= maxlen d.
Proof.
  intros Hlen. induction l as [|x l [IH1 IH2]] using rev_ind.
  - simpl. rewrite app_nil_r. split; [|exact Hlen].
    unfold last_items, deque_len in *.
    replace (length (items d) - Z.to_nat (maxlen d))%nat with O by lia. reflexivity.
  - rewrite deque_extend_snoc.
    pose proof (deque_append_items (deque_extend d l) x) as A.
    rewrite deque_extend_maxlen in A. destruct (A IH2) as [A1 _].
    rewrite A1, IH1, last_items_snoc, app_assoc. split; [reflexivity|].
    unfold deque_len. rewrite A1, IH1, last_items_snoc.
    pose proof (last_items_length (maxlen d) ((items d ++ l) ++ [x])).
    unfold deque_len in Hlen. lia.
Qed.

(** [__init__] builds a volume window of capacity [volume_window] and a
    price window of capacity [price_window + 1], both empty. *)
Lemma deque_new_ok (n : Z) (d : Deque) :
  deque_new n = Ok d -> d = mkDeque n [] /\ 0 <= n.
Proof.
  unfold deque_new.
  destruct ((n <? - 2 ^ 63) || (2 ^ 63 <=? n)); [discriminate|].
  destruct (n <? 0) eqn:E; [discriminate|].
  apply Z.ltb_ge in E. intros [= <-]. auto.
Qed.

(** What [__init__] returns when it returns. *)
Lemma init_ok (settings : Settings) (self : AnomalyDetector) :
  init settings = Ok self ->
  self = {| s := settings;
            volumes := mkDeque (volume_window settings) [];
            prices := mkDeque (price_window settings + 1) [];
            last_alert_ts := mkAlertTs 0 0 0;
            last_minute_ts := None |}
  /\ 0 <= volume_window settings
  /\ 0 <= price_window settings + 1.
Proof.
  unfold init.
  destruct (deque_new (volume_window settings)) as [vols|e] eqn:Ev; [|discriminate].
  destruct (deque_new (price_window settings + 1)) as [prs|e] eqn:Ep; [|discriminate].
  destruct (deque_new_ok _ _ Ev) as [-> Hv].
  destruct (deque_new_ok _ _ Ep) as [-> Hp].
  simpl. intros [= <-]. auto.
Qed.

Lemma init_well_formed (settings : Settings) (self : AnomalyDetector) :
  init settings = Ok self ->
  well_formed self /\ s self = settings
  /\ items (volumes self) = [] /\ items (prices self) = []
  /\ last_minute_ts self = None.
Proof.
  intros H. destruct (init_ok _ _ H) as (-> & Ev & Ep).
  unfold well_formed, deque_len. simpl. repeat split; auto; lia.
Qed.

(** Neither window ever holds more than its capacity: [check] keeps a
    well-formed detector well-formed, whether it returns or raises. *)
Lemma check_well_formed now kline self self' r :
  well_formed self ->
  check now kline self = (self', r) ->
  well_formed self'.
Proof.
  intros (Wv & Wp & Lv & Lp) H.
  destruct (deque_append_within (volumes self) (Kline.v kline) Lv) as [Mv Bv].
  destruct (deque_append_within (prices self) (Kline.c kline) Lp) as [Mp Bp].
  destruct (Kline.x kline) eqn:Hx;
    [|rewrite (check_not_final _ _ _ Hx) in H; injection H as <- _;
      unfold well_formed; auto].
  destruct (same_minute (last_minute_ts self) (Kline.T kline / 60000)) eqn:Hm;
    [rewrite (check_same_minute _ _ _ Hx Hm) in H; injection H as <- _;
     unfold well_formed; auto|].
  rewrite (check_new_minute _ _ _ Hx Hm) in H. simpl in H.
  destruct (volume_trigger self (Kline.v kline)) as [vol|e];
    [|injection H as <- _; unfold well_formed; auto].
  destruct (price_trigger self (Kline.c kline)) as [pr|e];
    [|injection H as <- _; unfold well_formed;
      cbn [s volumes prices volumes_append set_last_minute_ts];
      rewrite Mv; auto].
  unfold report in H. injection H as <- _.
  unfold well_formed.
  cbn [s volumes prices volumes_append prices_append set_last_minute_ts set_last_alert_ts].
  rewrite Mv, Mp. auto.
Qed.

(** ** The de-duplication guard *)

(** C2: a final kline whose minute bucket is the recorded one gets the
    all-false dict, and the detector is left exactly as it was. *)
Theorem check_repeated_minute_is_noop now kline self :
  Kline.x kline = true ->
  last_minute_ts self = Some (Kline.T kline / 60000) ->
  check now kline self = (self, Ok (mkSignals false false false)).
Proof.
  intros Hx Hm. apply check_same_minute; [exact Hx|].
  rewrite Hm. simpl. apply Z.eqb_refl.
Qed.

Lemma check_repeated_minute_is_noop_witness :
  Kline.x (minute_kline 30 60 9000) = true
  /\ last_minute_ts warm = Some (Kline.T (minute_kline 30 60 9000) / 60000)
  /\ check (clock 31) (minute_kline 30 60 9000) warm
     = (warm, Ok (mkSignals false false false)).
Proof.
  split; [reflexivity|]. split; [vm_compute; reflexivity|].
  apply check_repeated_minute_is_noop; [reflexivity | vm_compute; reflexivity].
Defined.

(** ** The returned dict *)

(** C3: at most one of the three flags of a returned dict is set; a set
    [merged] leaves [volume] and [price] clear. *)
Theorem check_at_most_one_signal now kline self self' out :
  check now kline self = (self', Ok out) ->
  volume out && price out = false
  /\ volume out && merged out = false
  /\ price out && merged out = false
  /\ (merged out = true -> volume out = false /\ price out = false).
Proof.
  intros H. destruct (check_cases _ _ _ _ _ H) as [E|[Hx Hm]].
  - subst out. simpl. repeat split; discriminate.
  - destruct (check_signals _ _ _ _ _ Hx Hm H) as (vol & pr & _ & _ & E).
    cbv zeta in E. subst out. simpl.
    destruct vol, pr,
      (in_cooldown (s self) now (ts_volume (last_alert_ts self))),
      (in_cooldown (s self) now (ts_price (last_alert_ts self)));
      simpl; repeat split; congruence.
Qed.

Lemma check_at_most_one_signal_witness :
  exists self' out,
    check (clock 31) (minute_kline 31 55 5000) warm = (self', Ok out)
    /\ volume out && price out = false
    /\ volume out && merged out = false
    /\ price out && merged out = false
    /\ (merged out = true -> volume out = false /\ price out = false).
Proof.
  assert (H : check (clock 31) (minute_kline 31 55 5000) warm
              = (fst (check (clock 31) (minute_kline 31 55 5000) warm),
                 Ok (mkSignals false false true))) by (vm_compute; reflexivity).
  eexists _, _. split; [exact H|].
  exact (check_at_most_one_signal _ _ _ _ _ H).
Defined.

(** C4: when both triggers fire and neither cool-down applies, the dict is
    exactly volume false, price false, merged true. *)
Theorem check_merges_both_triggers now kline self :
  Kline.x kline = true ->
  same_minute (last_minute_ts self) (Kline.T kline / 60000) = false ->
  volume_trigger self (Kline.v kline) = Ok true ->
  price_trigger self (Kline.c kline) = Ok true ->
  in_cooldown (s self) now (ts_volume (last_alert_ts self)) = false ->
  in_cooldown (s self) now (ts_price (last_alert_ts self)) = false ->
  snd (check now kline self) = Ok (mkSignals false false true).
Proof.
  intros Hx Hm Hv Hp Cv Cp.
  rewrite (check_new_minute _ _ _ Hx Hm). simpl. rewrite Hv, Hp.
  rewrite report_signals. simpl. rewrite Cv, Cp. reflexivity.
Qed.

Lemma check_merges_both_triggers_witness :
  snd (check (clock 31) (minute_kline 31 55 5000) warm)
    = Ok (mkSignals false false true).
Proof.
  apply check_merges_both_triggers; vm_compute; reflexivity.
Defined.

(** ** The warm-up thresholds *)

(** C6: while the price window holds fewer than [price_window] closes, the
    [price] flag of a returned dict is false. *)
Theorem check_price_needs_full_window now kline self self' out :
  deque_len (prices self) < price_window (s self) ->
  check now kline self = (self', Ok out) ->
  price out = false.
Proof.
  intros Hlen H. destruct (check_cases _ _ _ _ _ H) as [E|[Hx Hm]].
  - subst out. reflexivity.
  - destruct (check_signals _ _ _ _ _ Hx Hm H) as (vol & pr & _ & Hp & E).
    cbv zeta in E. subst out. simpl.
    unfold price_trigger in Hp.
    replace (price_window (s self) <=? deque_len (prices self)) with false in Hp
      by (symmetry; apply Z.leb_gt; exact Hlen).
    injection Hp as <-. reflexivity.
Qed.

Lemma check_price_needs_full_window_witness :
  exists self' out,
    deque_len (prices eight_quiet) < price_window (s eight_quiet)
    /\ check (clock 9) (minute_kline 9 1000000 1000000) eight_quiet = (self', Ok out)
    /\ price out = false.
Proof.
  assert (L : deque_len (prices eight_quiet) < price_window (s eight_quiet))
    by (vm_compute; reflexivity).
  assert (H : check (clock 9) (minute_kline 9 1000000 1000000) eight_quiet
              = (fst (check (clock 9) (minute_kline 9 1000000 1000000) eight_quiet),
                 Ok no_signals)) by (vm_compute; reflexivity).
  eexists _, _. split; [exact L|]. split; [exact H|].
  exact (check_price_needs_full_window _ _ _ _ _ L H).
Defined.

(** The same kline two quiet minutes later, when the price window holds ten
    closes and the volume window ten samples: both triggers fire.  After
    eight minutes it is the two warm-up tests alone that keep the flags
    down. *)
Example jump_after_ten_quiet_minutes :
  deque_len (prices ten_quiet) = 10
  /\ deque_len (volumes ten_quiet) = 10
  /\ snd (check (clock 11) (minute_kline 11 1000000 1000000) ten_quiet)
     = Ok (mkSignals false false true)
  /\ baseline eight_quiet 1000000 = 50%float
  /\ _mean_std (volumes eight_quiet) = Ok (101, 1)%float.
Proof. repeat split; vm_compute; reflexivity. Qed.

(** [max(5, k)] is the larger of the two. *)
Lemma py_max_5 (k : Z) : Py.max 5 k = Z.max 5 k.
Proof. unfold Py.max. destruct (5 <? k) eqn:E; [apply Z.ltb_lt in E | apply Z.ltb_ge in E]; lia. Qed.

(** Below [max(5, int(volume_window * 0.3))] samples the volume block
    answers false, if it answers. *)
Lemma volume_trigger_needs_min_samples self volume_sol need vol_signal :
  min_samples (s self) = Ok need ->
  deque_len (volumes self) < need ->
  volume_trigger self volume_sol = Ok vol_signal ->
  vol_signal = false.
Proof.
  intros Hneed Hlen Hv. unfold volume_trigger in Hv.
  destruct ((minute_volume_min (s self) <=? 0)%float
            || (minute_volume_min (s self) <=? volume_sol)%float);
    [|congruence].
  destruct (_mean_std (volumes self)) as [[mean_v std_v]|e]; [|discriminate].
  simpl in Hv.
  destruct (if (0 <? std_v)%float
            then Py.truediv (volume_sol - mean_v)%float std_v
            else Ok 0%float) as [z|e]; [|discriminate].
  simpl in Hv. rewrite Hneed in Hv. simpl in Hv.
  replace (need <=? deque_len (volumes self)) with false in Hv
    by (symmetry; apply Z.leb_gt; exact Hlen).
  simpl in Hv. congruence.
Qed.

(** C7: while the volume window holds fewer than
    [max(5, int(volume_window * 0.3))] samples, the [volume] flag of a
    returned dict is false, whatever the kline's volume. *)
Theorem check_volume_needs_min_samples now kline self need self' out :
  min_samples (s self) = Ok need ->
  deque_len (volumes self) < need ->
  check now kline self = (self', Ok out) ->
  volume out = false.
Proof.
  intros Hneed Hlen H. destruct (check_cases _ _ _ _ _ H) as [E|[Hx Hm]].
  - subst out. reflexivity.
  - destruct (check_signals _ _ _ _ _ Hx Hm H) as (vol & pr & Hv & _ & E).
    cbv zeta in E. subst out. simpl.
    rewrite (volume_trigger_needs_min_samples _ _ _ _ Hneed Hlen Hv). reflexivity.
Qed.

Lemma check_volume_needs_min_samples_witness :
  exists self' out,
    min_samples (s eight_quiet) = Ok 9
    /\ deque_len (volumes eight_quiet) < 9
    /\ check (clock 9) (minute_kline 9 1000000 1000000) eight_quiet = (self', Ok out)
    /\ volume out = false.
Proof.
  assert (N : min_samples (s eight_quiet) = Ok 9) by (vm_compute; reflexivity).
  assert (L : deque_len (volumes eight_quiet) < 9) by (vm_compute; reflexivity).
  assert (H : check (clock 9) (minute_kline 9 1000000 1000000) eight_quiet
              = (fst (check (clock 9) (minute_kline 9 1000000 1000000) eight_quiet),
                 Ok no_signals)) by (vm_compute; reflexivity).
  eexists _, _. split; [exact N|]. split; [exact L|]. split; [exact H|].
  exact (check_volume_needs_min_samples _ _ _ _ _ _ N L H).
Defined.

Lemma min_samples_is_floor_upto_spec (n m : nat) :
  min_samples_is_floor_upto n = true -> (m <= n)%nat ->
  min_samples_is_floor (Z.of_nat m) = true.
Proof.
  induction n as [|n IH]; intros H Hm.
  - replace m with O by lia. unfold min_samples_is_floor_upto in H.
    apply andb_true_iff in H. tauto.
  - cbn [min_samples_is_floor_upto] in H. apply andb_true_iff in H. destruct H as [H1 H2].
    destruct (Nat.eq_dec m (S n)) as [->|Hne]; [exact H1|].
    apply IH; [exact H2 | lia].
Qed.

(** For a window of up to a day of minutes, binary64 rounding does not
    show: [int(volume_window * 0.3)] is the floor of three tenths of the
    window size. *)
Lemma min_samples_floor (settings : Settings) :
  0 <= volume_window settings <= 1440 ->
  min_samples settings = Ok (Z.max 5 (3 * volume_window settings / 10)).
Proof.
  intros Hr.
  assert (A : min_samples_is_floor_upto 1440 = true) by (vm_compute; reflexivity).
  pose proof (min_samples_is_floor_upto_spec 1440 (Z.to_nat (volume_window settings)) A) as B.
  rewrite Z2Nat.id in B by lia.
  assert (C : (Z.to_nat (volume_window settings) <= 1440)%nat) by lia.
  specialize (B C). unfold min_samples_is_floor in B. unfold min_samples.
  destruct (f <- Py.int_mul (volume_window settings) 0.3%float;;
            k <- Py.int_of_float f;; Ok (Py.max 5 k))%result as [k|e]; [|discriminate].
  apply Z.eqb_eq in B. congruence.
Qed.

(** The same in the words of the specification, for those window sizes:
    fewer than [max(5, floor(0.3 * volume_window))] samples, no volume flag. *)
Corollary check_volume_needs_three_tenths now kline self self' out :
  0 <= volume_window (s self) <= 1440 ->
  deque_len (volumes self) < Z.max 5 (3 * volume_window (s self) / 10) ->
  check now kline self = (self', Ok out) ->
  volume out = false.
Proof.
  intros Hr Hlen H. destruct (check_cases _ _ _ _ _ H) as [E|[Hx Hm]].
  - subst out. reflexivity.
  - destruct (check_signals _ _ _ _ _ Hx Hm H) as (vol & pr & Hv & _ & E).
    cbv zeta in E. subst out. simpl.
    rewrite (volume_trigger_needs_min_samples _ _ _ _ (min_samples_floor _ Hr) Hlen Hv).
    reflexivity.
Qed.

(** ** The minimum-volume floor *)

(** What a returning evaluation of a final kline of a new minute leaves in
    the windows of a detector that respects its capacities: the last
    [volume_window] of the old volumes followed by the kline's volume, and
    the last [price_window + 1] of the old closes followed by its close. *)
Lemma check_pushes now kline self self' out :
  well_formed self ->
  Kline.x kline = true ->
  same_minute (last_minute_ts self) (Kline.T kline / 60000) = false ->
  check now kline self = (self', Ok out) ->
  items (volumes self')
    = last_items (volume_window (s self)) (items (volumes self) ++ [Kline.v kline])
  /\ items (prices self')
     = last_items (price_window (s self) + 1) (items (prices self) ++ [Kline.c kline]).
Proof.
  intros (Wv & Wp & Lv & Lp) Hx Hm H.
  destruct (check_appends _ _ _ _ _ Hx Hm H) as (-> & -> & _).
  destruct (deque_append_items (volumes self) (Kline.v kline) (proj2 Lv)) as [-> _].
  destruct (deque_append_items (prices self) (Kline.c kline) (proj2 Lp)) as [-> _].
  rewrite Wv, Wp. split; reflexivity.
Qed.

(** C8: with a positive floor and a kline volume below it, a final kline of
    a new minute returns with the [volume] flag false, and both windows have
    received the kline's volume and close as on any other evaluation: the
    volume window is then the last [volume_window] of its old values
    followed by the kline's volume, the price window the last
    [price_window + 1] of its old closes followed by the kline's close. *)
Theorem check_below_floor_still_updates now kline self :
  well_formed self ->
  Kline.x kline = true ->
  same_minute (last_minute_ts self) (Kline.T kline / 60000) = false ->
  (0 <? minute_volume_min (s self))%float = true ->
  (Kline.v kline <? minute_volume_min (s self))%float = true ->
  exists self' out,
    check now kline self = (self', Ok out)
    /\ volume out = false
    /\ items (volumes self')
       = last_items (volume_window (s self)) (items (volumes self) ++ [Kline.v kline])
    /\ items (prices self')
       = last_items (price_window (s self) + 1) (items (prices self) ++ [Kline.c kline]).
Proof.
  intros W Hx Hm Hpos Hlow.
  assert (Hv : volume_trigger self (Kline.v kline) = Ok false).
  { unfold volume_trigger.
    rewrite (ltb_leb_false _ _ Hpos), (ltb_leb_false _ _ Hlow). reflexivity. }
  destruct (price_trigger_returns self (Kline.c kline)) as [pr Hp].
  destruct (check now kline self) as [self' [out|e]] eqn:H.
  - exists self', out. split; [reflexivity|].
    destruct (check_signals _ _ _ _ _ Hx Hm H) as (vol & pr' & Hv' & _ & E).
    destruct (check_pushes _ _ _ _ _ W Hx Hm H) as (A1 & A2).
    rewrite Hv in Hv'. injection Hv' as <-. cbv zeta in E. subst out.
    simpl. auto.
  - rewrite (check_new_minute _ _ _ Hx Hm) in H. simpl in H.
    rewrite Hv, Hp in H.
    apply (f_equal snd) in H. rewrite report_signals in H. discriminate.
Qed.

Lemma check_below_floor_still_updates_witness :
  exists self' out,
    check (clock 31) (minute_kline 31 51 10) floor_warm = (self', Ok out)
    /\ volume out = false
    /\ items (volumes self')
       = last_items (volume_window (s floor_warm))
           (items (volumes floor_warm) ++ [Kline.v (minute_kline 31 51 10)])
    /\ items (prices self')
       = last_items (price_window (s floor_warm) + 1)
           (items (prices floor_warm) ++ [Kline.c (minute_kline 31 51 10)]).
Proof.
  refine (check_below_floor_still_updates (clock 31) (minute_kline 31 51 10)
            floor_warm _ _ _ _ _).
  - vm_compute. repeat split; first [reflexivity | discriminate].
  - reflexivity.
  - vm_compute; reflexivity.
  - vm_compute; reflexivity.
  - vm_compute; reflexivity.
Defined.

(** The windows of that evaluation, written out: the oldest volume and the
    oldest close have left, the volume of 10 SOL, under the floor of 50, and
    the close of 51 have come in at the right end; the price block has run
    as usual (51 against 50 is the 2 percent of the threshold). *)
Example below_floor_windows :
  hd 0%float (items (volumes floor_warm)) = 102%float
  /\ length (items (volumes floor_warm)) = 30%nat
  /\ items (volumes (fst (check (clock 31) (minute_kline 31 51 10) floor_warm)))
     = tl (items (volumes floor_warm)) ++ [10%float]
  /\ items (prices (fst (check (clock 31) (minute_kline 31 51 10) floor_warm)))
     = tl (items (prices floor_warm)) ++ [51%float]
  /\ snd (check (clock 31) (minute_kline 31 51 10) floor_warm)
     = Ok (mkSignals false true false).
Proof. repeat split; vm_compute; reflexivity. Qed.

(** ** The back-off of [ws_loop] *)

(** [backoff] stays among seven values, whatever the attempts. *)
Lemma ws_pass_backoff_values backoff a slept backoff' :
  In backoff backoff_values ->
  ws_pass backoff a = Some (slept, backoff') ->
  In slept backoff_values /\ In backoff' backoff_values.
Proof.
  intros Hin H. unfold ws_pass in H.
  destruct (handler_raised a); [discriminate|].
  injection H as <- <-.
  destruct (connected a).
  - split; [left; reflexivity | right; left; reflexivity].
  - split; [exact Hin|].
    unfold backoff_values in *. simpl in Hin.
    repeat (destruct Hin as [<-|Hin]; [vm_compute; tauto|]).
    contradiction.
Qed.

Lemma backoff_values_bounds (b : float) :
  In b backoff_values -> ((1 <=? b) && (b <=? 60))%float = true.
Proof.
  unfold backoff_values. simpl. intros Hin.
  repeat (destruct Hin as [<-|Hin]; [reflexivity|]).
  contradiction.
Qed.

Lemma ws_passes_bounds (atts : list Attempt) :
  forall backoff, In backoff backoff_values ->
  forallb (fun w => (1 <=? w) && (w <=? 60))%float (ws_passes backoff atts) = true.
Proof.
  induction atts as [|a rest IH]; intros backoff Hin; simpl; [reflexivity|].
  destruct (ws_pass backoff a) as [[slept backoff']|] eqn:E; [|reflexivity].
  destruct (ws_pass_backoff_values _ _ _ _ Hin E) as [H1 H2].
  simpl. rewrite (backoff_values_bounds _ H1). simpl. apply IH. exact H2.
Qed.

(** C10: the wait starts at one second, each pass doubles it up to the cap
    of sixty, a successful connection brings it back to one second at once,
    and three failed connections in a row from the start wait 1, 2 and 4
    seconds. *)
Theorem ws_loop_backoff_schedule :
  ws_loop [ConnectFailed false; ConnectFailed false; ConnectFailed false]
    = [1; 2; 4]%float
  /\ (forall backoff,
        ws_pass backoff (ConnectFailed false)
          = Some (backoff, Py.min (backoff * 2)%float 60%float))
  /\ (forall backoff,
        ws_pass backoff StreamEnded = Some (1, 2)%float
        /\ ws_pass backoff (StreamRaised false) = Some (1, 2)%float)
  /\ (forall backoff,
        ws_passes backoff
          [StreamEnded; ConnectFailed false; ConnectFailed false; ConnectFailed false]
          = [1; 2; 4; 8]%float)
  /\ ws_loop (repeat (ConnectFailed false) 9)
       = [1; 2; 4; 8; 16; 32; 60; 60; 60]%float
  /\ (forall atts,
        forallb (fun w => (1 <=? w) && (w <=? 60))%float (ws_loop atts) = true).
Proof.
  split; [reflexivity|].
  split; [intros backoff; reflexivity|].
  split; [intros backoff; split; reflexivity|].
  split; [intros backoff; reflexivity|].
  split; [reflexivity|].
  intros atts. apply ws_passes_bounds. left. reflexivity.
Qed.

(** ** A window of identical values *)

Lemma sub_diag_zero_or_nan (v : float) : zero_or_nan (v - v).
Proof.
  unfold zero_or_nan.
  assert (H : Prim2SF (v - v) = S754_zero false \/ Prim2SF (v - v) = S754_nan).
  { rewrite sub_spec. unfold SF64sub, SFsub.
    destruct (Prim2SF v) as [sv|sv| |sv mv ev].
    - left. destruct sv; reflexivity.
    - right. destruct sv; reflexivity.
    - right. reflexivity.
    - left. rewrite Z.sub_diag. reflexivity. }
  destruct H as [H|H]; [left|right]; apply Prim2SF_inj; rewrite H; reflexivity.
Qed.

Lemma pow2_zero_or_nan (d : float) :
  zero_or_nan d -> exists q, Py.pow2 d = Ok q /\ zero_or_nan q.
Proof.
  intros [->| ->].
  - exists 0%float. split; [reflexivity | left; reflexivity].
  - exists nan. split; [reflexivity | right; reflexivity].
Qed.

Lemma add_zero_or_nan (a b : float) :
  zero_or_nan a -> zero_or_nan b -> zero_or_nan (a + b).
Proof.
  intros [->| ->] [->| ->]; [left | right | right | right]; reflexivity.
Qed.

(** The squared deviations of identical values from that value add up to
    the positive zero or to the NaN, and none of the squares raises. *)
Lemma sum_gen_identical (v : float) (vals : list float) :
  Forall (eq v) vals ->
  forall acc, zero_or_nan acc ->
  exists sq, Py.sum_gen (fun x => Py.pow2 (x - v)%float) vals acc = Ok sq
             /\ zero_or_nan sq.
Proof.
  induction 1 as [|x rest Hx _ IH]; intros acc Hacc; simpl.
  - exists acc. split; [reflexivity | exact Hacc].
  - subst x.
    destruct (pow2_zero_or_nan _ (sub_diag_zero_or_nan v)) as (q & Hq & Zq).
    rewrite Hq. simpl. apply IH. apply add_zero_or_nan; assumption.
Qed.

(** Such a sum divided by anything is not below zero, and its square root
    is not above zero. *)
Lemma div_zero_or_nan (sq b : float) :
  zero_or_nan sq ->
  (sq / b <? 0)%float = false /\ (0 <? sqrt (sq / b))%float = false.
Proof.
  intros Hsq.
  assert (H : exists sf, Prim2SF (sq / b) = sf
                         /\ match sf with
                            | S754_zero _ | S754_nan => True
                            | _ => False
                            end).
  { eexists. split; [reflexivity|]. rewrite div_spec. unfold SF64div, SFdiv.
    destruct Hsq as [->| ->].
    - change (Prim2SF 0) with (S754_zero false).
      destruct (Prim2SF b); exact I.
    - change (Prim2SF nan) with S754_nan. exact I. }
  destruct H as (sf & E & Hsf).
  rewrite !ltb_spec, sqrt_spec, E.
  change (Prim2SF 0) with (S754_zero false).
  destruct sf as [sg|sg| |sg m e]; try contradiction; split; reflexivity.
Qed.

(** When the mean of a window of identical values [v] comes out as [v]
    itself, [_mean_std] returns, and its standard deviation is not above
    zero. *)
Lemma mean_std_identical (vals : Deque) (v : float) :
  Forall (eq v) (items vals) ->
  Py.truediv_int (Py.sum (items vals)) (deque_len vals) = Ok v ->
  exists std_v, _mean_std vals = Ok (v, std_v) /\ (0 <? std_v)%float = false.
Proof.
  intros Hall Hmean. unfold _mean_std.
  destruct (deque_len vals =? 0) eqn:E0.
  - apply Z.eqb_eq in E0. rewrite E0 in Hmean. discriminate.
  - rewrite Hmean. simpl.
    destruct (1 <? deque_len vals).
    + destruct (sum_gen_identical v (items vals) Hall 0%float (or_introl eq_refl))
        as (sq & Hsq & Zsq).
      rewrite Hsq. simpl.
      unfold Py.truediv_int in *.
      destruct (Py.float_of_int (deque_len vals)) as [b|e]; [|discriminate].
      simpl in *. unfold Py.truediv in *.
      destruct (b =? 0)%float; [discriminate|]. simpl.
      destruct (div_zero_or_nan sq b Zsq) as [Hlt Hgt].
      unfold Py.math_sqrt. rewrite Hlt. simpl.
      eexists. split; [reflexivity | exact Hgt].
    + simpl. exists 0%float. split; reflexivity.
Qed.

(** A final kline of a new minute returns as soon as its volume block
    does. *)
Lemma check_returns now kline self vol_signal :
  volume_trigger self (Kline.v kline) = Ok vol_signal ->
  exists self' out, check now kline self = (self', Ok out).
Proof.
  intros Hv.
  destruct (Kline.x kline) eqn:Hx;
    [|rewrite (check_not_final _ _ _ Hx); eauto].
  destruct (same_minute (last_minute_ts self) (Kline.T kline / 60000)) eqn:Hm;
    [rewrite (check_same_minute _ _ _ Hx Hm); eauto|].
  destruct (price_trigger_returns self (Kline.c kline)) as [pr Hp].
  rewrite (check_new_minute _ _ _ Hx Hm). simpl. rewrite Hv, Hp.
  unfold report. eauto.
Qed.

(** With a standard deviation that is not above zero, [z] is [0.0], and a
    positive threshold keeps the volume block at false. *)
Lemma volume_trigger_flat self volume_sol mean_v std_v need :
  _mean_std (volumes self) = Ok (mean_v, std_v) ->
  (0 <? std_v)%float = false ->
  (0 <? volume_zscore (s self))%float = true ->
  min_samples (s self) = Ok need ->
  volume_trigger self volume_sol = Ok false.
Proof.
  intros Hms Hstd Hthr Hneed. unfold volume_trigger.
  destruct ((minute_volume_min (s self) <=? 0)%float
            || (minute_volume_min (s self) <=? volume_sol)%float); [|reflexivity].
  rewrite Hms. simpl. rewrite Hstd. simpl. rewrite Hneed. simpl.
  rewrite (ltb_leb_false _ _ Hthr). rewrite andb_false_r. reflexivity.
Qed.

(** C9 does not hold as the specification states it: a window of five at capacity, all of its
    values 100, a threshold of zero, and a new kline of volume 100 sets the
    [volume] flag ([z] is [0.0], and [0.0 >= 0.0]). *)
Lemma identical_window_fires_at_zero_threshold :
  init (window_settings 5 0) = Ok (window_detector 5 0)
  /\ flat_window = fst (feed (window_detector 5 0) (flat_calls 100 5))
  /\ volume_zscore (s flat_window) = 0%float
  /\ Kline.x (minute_kline 6 50 100) = true
  /\ same_minute (last_minute_ts flat_window) (Kline.T (minute_kline 6 50 100) / 60000)
     = false
  /\ Kline.v (minute_kline 6 50 100) = 100%float
  /\ deque_len (volumes flat_window) = maxlen (volumes flat_window)
  /\ items (volumes flat_window) = repeat 100%float 5
  /\ _mean_std (volumes flat_window) = Ok (100%float, 0%float)
  /\ snd (check (clock 6) (minute_kline 6 50 100) flat_window)
     = Ok (mkSignals true false false).
Proof. repeat split; vm_compute; reflexivity. Qed.

(** C9, amended: with all the values of the window equal to [v], their mean
    computed as [v] itself and a positive threshold, a final kline of a new
    minute with volume [v] returns with the [volume] flag false: the standard
    deviation is not above zero, so [z] is [0.0]. *)
Theorem check_identical_window_no_volume now kline self v need :
  Kline.x kline = true ->
  same_minute (last_minute_ts self) (Kline.T kline / 60000) = false ->
  deque_len (volumes self) = maxlen (volumes self) ->
  Forall (eq v) (items (volumes self)) ->
  Kline.v kline = v ->
  Py.truediv_int (Py.sum (items (volumes self))) (deque_len (volumes self)) = Ok v ->
  (0 <? volume_zscore (s self))%float = true ->
  min_samples (s self) = Ok need ->
  exists self' out std_v,
    _mean_std (volumes self) = Ok (v, std_v)
    /\ (0 <? std_v)%float = false
    /\ check now kline self = (self', Ok out)
    /\ volume out = false.
Proof.
  intros Hx Hm _ Hall _ Hmean Hthr Hneed.
  destruct (mean_std_identical _ _ Hall Hmean) as (std_v & Hms & Hstd).
  pose proof (volume_trigger_flat self (Kline.v kline) _ _ _ Hms Hstd Hthr Hneed) as Hv.
  destruct (check_returns now kline self _ Hv) as (self' & out & H).
  exists self', out, std_v. repeat split; try assumption.
  destruct (check_signals _ _ _ _ _ Hx Hm H) as (vol & pr & Hv' & _ & E).
  rewrite Hv in Hv'. injection Hv' as <-. cbv zeta in E. subst out. reflexivity.
Qed.

Lemma check_identical_window_no_volume_witness :
  exists self' out std_v,
    _mean_std (volumes flat_default_window) = Ok (100%float, std_v)
    /\ (0 <? std_v)%float = false
    /\ check (clock 31) (minute_kline 31 50 100) flat_default_window = (self', Ok out)
    /\ volume out = false.
Proof.
  apply (check_identical_window_no_volume
           (clock 31) (minute_kline 31 50 100) flat_default_window 100%float 9);
    try (vm_compute; reflexivity).
  vm_compute. repeat constructor.
Defined.

(** The mean of identical values need not be that value: six times 0.1,
    added from left to right and divided by six, is just below 0.1.  The
    standard deviation is then a tiny positive number, [z] is [1.0], and a
    threshold of one lets the seventh identical minute set the [volume] flag
    (left-to-right addition is [sum] before Python 3.12, which compensates). *)
Lemma identical_window_rounded_mean_fires :
  items (volumes tenths_window) = repeat 0.1%float 6
  /\ Py.truediv_int (Py.sum (items (volumes tenths_window))) 6
     = Ok 0.09999999999999999%float
  /\ snd (check (clock 7) (minute_kline 7 50 0.1) tenths_window)
     = Ok (mkSignals true false false).
Proof. repeat split; vm_compute; reflexivity. Qed.

(** ** Cool-downs *)

(** [last_alert_ts] after a returning [check]: the entry of the reported
    kind is [now], the others are as before. *)
Lemma check_records_alert now kline self self' out :
  check now kline self = (self', Ok out) ->
  last_alert_ts self' = record_alert now out (last_alert_ts self).
Proof.
  intros H.
  destruct (Kline.x kline) eqn:Hx.
  - destruct (same_minute (last_minute_ts self) (Kline.T kline / 60000)) eqn:Hm.
    + rewrite (check_same_minute _ _ _ Hx Hm) in H. injection H as <- <-. reflexivity.
    + rewrite (check_new_minute _ _ _ Hx Hm) in H. simpl in H.
      destruct (volume_trigger self (Kline.v kline)) as [vol|e]; [|discriminate].
      destruct (price_trigger self (Kline.c kline)) as [pr|e]; [|discriminate].
      unfold report in H. simpl in H. injection H as <- <-. simpl.
      destruct vol, pr,
        (in_cooldown (s self) now (ts_volume (last_alert_ts self))),
        (in_cooldown (s self) now (ts_price (last_alert_ts self)));
        simpl; destruct (last_alert_ts self); reflexivity.
  - rewrite (check_not_final _ _ _ Hx) in H. injection H as <- <-. reflexivity.
Qed.

(** The settings are never assigned. *)
Lemma check_settings now kline self self' r :
  check now kline self = (self', r) -> s self' = s self.
Proof.
  intros H.
  destruct (Kline.x kline) eqn:Hx.
  - destruct (same_minute (last_minute_ts self) (Kline.T kline / 60000)) eqn:Hm.
    + rewrite (check_same_minute _ _ _ Hx Hm) in H. congruence.
    + rewrite (check_new_minute _ _ _ Hx Hm) in H. simpl in H.
      destruct (volume_trigger self (Kline.v kline)) as [vol|e];
        [|injection H as <- _; reflexivity].
      destruct (price_trigger self (Kline.c kline)) as [pr|e];
        [|injection H as <- _; reflexivity].
      unfold report in H. injection H as <- _. reflexivity.
  - rewrite (check_not_final _ _ _ Hx) in H. congruence.
Qed.

(** The flags of a returned dict exclude one another. *)
Lemma check_flags_exclusive now kline self self' out :
  check now kline self = (self', Ok out) ->
  (volume out = true -> price out = false /\ merged out = false)
  /\ (price out = true -> volume out = false /\ merged out = false)
  /\ (merged out = true -> volume out = false /\ price out = false).
Proof.
  intros H. destruct (check_cases _ _ _ _ _ H) as [E|[Hx Hm]].
  - subst out. simpl. repeat split; discriminate.
  - destruct (check_signals _ _ _ _ _ Hx Hm H) as (vol & pr & _ & _ & E).
    cbv zeta in E. subst out. simpl.
    destruct vol, pr,
      (in_cooldown (s self) now (ts_volume (last_alert_ts self))),
      (in_cooldown (s self) now (ts_price (last_alert_ts self)));
      simpl; repeat split; congruence.
Qed.

(** A reported volume alert silences the [volume] flag of the next call for
    as long as the clock is less than the cool-down past the report. *)
Lemma volume_alert_cools_down now kline self self1 out now' kline' self2 out' :
  check now kline self = (self1, Ok out) ->
  volume out = true ->
  in_cooldown (s self) now' now = true ->
  check now' kline' self1 = (self2, Ok out') ->
  volume out' = false /\ merged out' = false.
Proof.
  intros H Hvol Hcd H'.
  pose proof (check_records_alert _ _ _ _ _ H) as Hts.
  pose proof (check_settings _ _ _ _ _ H) as Hs.
  destruct (check_flags_exclusive _ _ _ _ _ H) as [Hex _].
  destruct (Hex Hvol) as [_ Hmg].
  unfold record_alert in Hts. rewrite Hmg, Hvol in Hts.
  destruct (check_cases _ _ _ _ _ H') as [E|[Hx Hm]].
  - subst out'. split; reflexivity.
  - destruct (check_signals _ _ _ _ _ Hx Hm H') as (vol & pr & _ & _ & E).
    cbv zeta in E. rewrite Hs, Hts in E. simpl in E. rewrite Hcd in E.
    subst out'. simpl. rewrite andb_false_r. split; reflexivity.
Qed.

(** The same for a reported price alert. *)
Lemma price_alert_cools_down now kline self self1 out now' kline' self2 out' :
  check now kline self = (self1, Ok out) ->
  price out = true ->
  in_cooldown (s self) now' now = true ->
  check now' kline' self1 = (self2, Ok out') ->
  price out' = false /\ merged out' = false.
Proof.
  intros H Hpr Hcd H'.
  pose proof (check_records_alert _ _ _ _ _ H) as Hts.
  pose proof (check_settings _ _ _ _ _ H) as Hs.
  destruct (check_flags_exclusive _ _ _ _ _ H) as (_ & Hex & _).
  destruct (Hex Hpr) as [Hvol Hmg].
  unfold record_alert in Hts. rewrite Hmg, Hvol, Hpr in Hts.
  destruct (check_cases _ _ _ _ _ H') as [E|[Hx Hm]].
  - subst out'. split; reflexivity.
  - destruct (check_signals _ _ _ _ _ Hx Hm H') as (vol & pr & _ & _ & E).
    cbv zeta in E. rewrite Hs, Hts in E. simpl in E. rewrite Hcd in E.
    subst out'. simpl. rewrite !andb_false_r. split; reflexivity.
Qed.

(** The entry ["merged"] of [last_alert_ts] is written and never read:
    whatever it holds, [check] returns the same dict. *)
Lemma check_ignores_ts_merged now kline self t :
  snd (check now kline (set_ts_merged t self)) = snd (check now kline self).
Proof.
  destruct (Kline.x kline) eqn:Hx;
    [|rewrite !(check_not_final _ _ _ Hx); reflexivity].
  destruct (same_minute (last_minute_ts self) (Kline.T kline / 60000)) eqn:Hm.
  - rewrite (check_same_minute _ _ self Hx Hm).
    rewrite (check_same_minute _ _ (set_ts_merged t self) Hx Hm). reflexivity.
  - rewrite (check_new_minute _ _ self Hx Hm).
    rewrite (check_new_minute _ _ (set_ts_merged t self) Hx Hm). simpl.
    change (volume_trigger (set_ts_merged t self)) with (volume_trigger self).
    change (price_trigger (set_ts_merged t self)) with (price_trigger self).
    destruct (volume_trigger self (Kline.v kline)) as [vol|e]; [|reflexivity].
    destruct (price_trigger self (Kline.c kline)) as [pr|e]; [|reflexivity].
    rewrite !report_signals. reflexivity.
Qed.

(** C1, where the code departs from it: the detector [__init__] builds from
    the default settings, thirty quiet minutes, then two minutes in a row on
    which volume and price both jump.  The first reports a merged alert and
    stores its time under ["merged"]; sixty seconds later, well inside the
    cool-down of six hundred, the second reports a merged alert again.  The
    entries ["volume"] and ["price"], the only ones the cool-down test reads,
    were never written. *)
Theorem merged_alert_repeats_within_cooldown :
  init default_settings = Ok detector0
  /\ warm = fst (feed detector0 quiet_calls)
  /\ snd (feed warm spike_calls)
     = [Ok (mkSignals false false true); Ok (mkSignals false false true)]
  /\ last_alert_ts (fst (check (clock 31) (minute_kline 31 55 5000) warm))
     = mkAlertTs 0 0 (clock 31)
  /\ in_cooldown default_settings (clock 32) (clock 31) = true.
Proof. repeat split; vm_compute; reflexivity. Qed.

(** Inside the cool-down of the last volume alert, [check] leaves the
    entry ["volume"] alone and reports neither a volume nor a merged alert,
    raise or not. *)
Lemma check_inside_volume_cooldown now kline self self' r :
  check now kline self = (self', r) ->
  in_cooldown (s self) now (ts_volume (last_alert_ts self)) = true ->
  ts_volume (last_alert_ts self') = ts_volume (last_alert_ts self)
  /\ forall out, r = Ok out -> volume out = false /\ merged out = false.
Proof.
  intros H Hcd.
  destruct (Kline.x kline) eqn:Hx;
    [|rewrite (check_not_final _ _ _ Hx) in H; injection H as <- <-;
      split; [reflexivity | intros out [= <-]; split; reflexivity]].
  destruct (same_minute (last_minute_ts self) (Kline.T kline / 60000)) eqn:Hm;
    [rewrite (check_same_minute _ _ _ Hx Hm) in H; injection H as <- <-;
     split; [reflexivity | intros out [= <-]; split; reflexivity]|].
  rewrite (check_new_minute _ _ _ Hx Hm) in H. simpl in H.
  destruct (volume_trigger self (Kline.v kline)) as [vol|e];
    [|injection H as <- <-; split; [reflexivity | discriminate]].
  destruct (price_trigger self (Kline.c kline)) as [pr|e];
    [|injection H as <- <-; split; [reflexivity | discriminate]].
  unfold report in H. simpl in H. rewrite Hcd in H. injection H as <- <-.
  rewrite andb_true_r. simpl.
  destruct vol, pr, (in_cooldown (s self) now (ts_price (last_alert_ts self)));
    simpl; (split; [reflexivity | intros out [= <-]; split; reflexivity]).
Qed.

Lemma check_inside_price_cooldown now kline self self' r :
  check now kline self = (self', r) ->
  in_cooldown (s self) now (ts_price (last_alert_ts self)) = true ->
  ts_price (last_alert_ts self') = ts_price (last_alert_ts self)
  /\ forall out, r = Ok out -> price out = false /\ merged out = false.
Proof.
  intros H Hcd.
  destruct (Kline.x kline) eqn:Hx;
    [|rewrite (check_not_final _ _ _ Hx) in H; injection H as <- <-;
      split; [reflexivity | intros out [= <-]; split; reflexivity]].
  destruct (same_minute (last_minute_ts self) (Kline.T kline / 60000)) eqn:Hm;
    [rewrite (check_same_minute _ _ _ Hx Hm) in H; injection H as <- <-;
     split; [reflexivity | intros out [= <-]; split; reflexivity]|].
  rewrite (check_new_minute _ _ _ Hx Hm) in H. simpl in H.
  destruct (volume_trigger self (Kline.v kline)) as [vol|e];
    [|injection H as <- <-; split; [reflexivity | discriminate]].
  destruct (price_trigger self (Kline.c kline)) as [pr|e];
    [|injection H as <- <-; split; [reflexivity | discriminate]].
  unfold report in H. simpl in H. rewrite Hcd in H. injection H as <- <-.
  rewrite andb_true_r. simpl.
  destruct vol, pr, (in_cooldown (s self) now (ts_volume (last_alert_ts self)));
    simpl; (split; [reflexivity | intros out [= <-]; split; reflexivity]).
Qed.

(** However many klines are evaluated while the clock is inside the
    cool-down of the last volume alert, none of them reports a volume or a
    merged alert. *)
Lemma volume_cooldown_run (calls : list (float * Kline.t)) :
  forall self,
  Forall (fun call => in_cooldown (s self) (fst call) (ts_volume (last_alert_ts self)) = true)
         calls ->
  silent volume (snd (feed self calls)).
Proof.
  unfold silent.
  induction calls as [|[now kline] rest IH]; intros self Hall; [constructor|].
  inversion Hall as [|? ? Hcd Hrest]; subst. simpl in Hcd. simpl.
  destruct (check now kline self) as [self1 r] eqn:H.
  destruct (check_inside_volume_cooldown _ _ _ _ _ H Hcd) as [Hts Hout].
  pose proof (check_settings _ _ _ _ _ H) as Hs.
  specialize (IH self1). rewrite Hs, Hts in IH. specialize (IH Hrest).
  destruct (feed self1 rest) as [self2 outs]. simpl in *.
  constructor; assumption.
Qed.

Lemma price_cooldown_run (calls : list (float * Kline.t)) :
  forall self,
  Forall (fun call => in_cooldown (s self) (fst call) (ts_price (last_alert_ts self)) = true)
         calls ->
  silent price (snd (feed self calls)).
Proof.
  unfold silent.
  induction calls as [|[now kline] rest IH]; intros self Hall; [constructor|].
  inversion Hall as [|? ? Hcd Hrest]; subst. simpl in Hcd. simpl.
  destruct (check now kline self) as [self1 r] eqn:H.
  destruct (check_inside_price_cooldown _ _ _ _ _ H Hcd) as [Hts Hout].
  pose proof (check_settings _ _ _ _ _ H) as Hs.
  specialize (IH self1). rewrite Hs, Hts in IH. specialize (IH Hrest).
  destruct (feed self1 rest) as [self2 outs]. simpl in *.
  constructor; assumption.
Qed.

(** After a cool-down has run out the same kind fires again: a volume alert
    in minute 31, silence in minute 32 (60 seconds later), and a volume alert
    again in minute 41 (600 seconds later). *)
Lemma volume_alert_fires_again_after_cooldown :
  snd (feed warm [(clock 31, minute_kline 31 50 5000);
                  (clock 32, minute_kline 32 50 50000);
                  (clock 41, minute_kline 41 50 500000)])
    = [Ok (mkSignals true false false); Ok no_signals; Ok (mkSignals true false false)]
  /\ in_cooldown default_settings (clock 32) (clock 31) = true
  /\ in_cooldown default_settings (clock 41) (clock 31) = false.
Proof. repeat split; vm_compute; reflexivity. Qed.

(** ** The price window *)

(** A deque that started empty holds the last [maxlen] elements it was
    given. *)
Lemma deque_extend_items (m : Z) (l : list float) :
  0 <= m ->
  items (deque_extend (mkDeque m []) l) = skipn (length l - Z.to_nat m) l.
Proof.
  intros Hm. induction l as [|x l IH] using rev_ind; [reflexivity|].
  rewrite deque_extend_snoc. unfold deque_append.
  rewrite deque_extend_maxlen. simpl maxlen. simpl items. rewrite IH.
  rewrite !length_app, length_skipn. simpl length.
  destruct (m <? Z.of_nat (length l - (length l - Z.to_nat m) + 1)) eqn:E.
  - apply Z.ltb_lt in E.
    rewrite tl_skipn_snoc by lia.
    f_equal. lia.
  - apply Z.ltb_ge in E.
    replace (length l - Z.to_nat m)%nat with O by lia.
    replace (length l + 1 - Z.to_nat m)%nat with O by lia.
    reflexivity.
Qed.

(** The price window after a run of evaluated klines has received their
    closes in order. *)
Lemma feed_prices (calls : list (float * Kline.t)) :
  forall self, evaluated self calls ->
  prices (fst (feed self calls)) = deque_extend (prices self) (closes calls)
  /\ s (fst (feed self calls)) = s self.
Proof.
  induction calls as [|[now kline] rest IH]; intros self Hev; [split; reflexivity|].
  simpl in Hev. destruct Hev as (Hx & Hm & [out Hout] & Hrest).
  simpl. destruct (check now kline self) as [self1 r] eqn:H.
  simpl in Hout, Hrest. subst r.
  destruct (check_appends _ _ _ _ _ Hx Hm H) as (_ & Hp & _ & Hs).
  destruct (IH self1 Hrest) as [IHp IHs].
  destruct (feed self1 rest) as [self2 outs]. simpl in *.
  rewrite IHp, IHs, Hp, Hs. split; reflexivity.
Qed.

(** Once more than [price_window] klines have been evaluated, the baseline
    of the next one is the close from [price_window + 1] evaluations before
    it: the window holds [price_window + 1] closes, none of them the current
    one, and the baseline is the oldest. *)
Lemma baseline_lookback (settings : Settings) (self : AnomalyDetector)
      (calls : list (float * Kline.t)) (close_price : float) :
  init settings = Ok self ->
  0 <= price_window settings ->
  evaluated self calls ->
  (Z.to_nat (price_window settings) + 1 <= length calls)%nat ->
  baseline (fst (feed self calls)) close_price
    = nth (length calls - (Z.to_nat (price_window settings) + 1)) (closes calls) close_price.
Proof.
  intros Hinit Hpw Hev Hlen. destruct (init_ok _ _ Hinit) as (-> & _ & E).
  unfold baseline. destruct (feed_prices calls _ Hev) as [-> _]. simpl prices.
  rewrite deque_extend_items by exact E.
  assert (L : length (closes calls) = length calls) by (unfold closes; apply length_map).
  rewrite L.
  replace (Z.to_nat (price_window settings + 1))
    with (Z.to_nat (price_window settings) + 1)%nat by lia.
  generalize (length calls - (Z.to_nat (price_window settings) + 1))%nat as k.
  generalize (closes calls) as l.
  induction l as [|y l IH]; intros k; destruct k; simpl; auto.
Qed.

(** C5, where the code departs from it: default settings ([price_window] is
    10, the deque holds 11), eleven evaluated minutes, then the twelfth kline
    with close 102.5.  Its baseline is the close of the first minute, eleven
    evaluations earlier (100), not that of the second, ten evaluations
    earlier (101); against 100 the move is 2.5 percent and the [price] flag is
    set, against 101 it would be under the threshold of 2 percent. *)
Theorem baseline_is_eleven_evaluations_back :
  init default_settings = Ok detector0
  /\ maxlen (prices detector0) = price_window default_settings + 1
  /\ snd (feed detector0 (firstn 11 drift_calls)) = repeat (Ok no_signals) 11
  /\ items (prices drift_eleven) = firstn 11 drift_closes
  /\ baseline drift_eleven 102.5%float = nth 0 drift_closes 0%float
  /\ nth 0 drift_closes 0%float = 100%float
  /\ nth 1 drift_closes 0%float = 101%float
  /\ snd (check (clock 12) (minute_kline 12 102.5 100) drift_eleven)
     = Ok (mkSignals false true false)
  /\ (price_pct_change default_settings <=? abs ((102.5 - 101) / 101 * 100))%float = false.
Proof. repeat split; vm_compute; reflexivity. Qed.

(** * Further properties of the code *)

(** ** [__init__] and the deques *)

(** X2: a deque that started empty and was given the elements of [l] one
    by one holds the last [maxlen] of them, oldest first, and all of them
    when they are no more than [maxlen]. *)
Theorem deque_holds_last_maxlen (m : Z) (l : list float) :
  0 <= m ->
  items (deque_extend (mkDeque m []) l) = skipn (length l - Z.to_nat m) l
  /\ deque_len (deque_extend (mkDeque m []) l) = Z.min (Z.of_nat (length l)) m.
Proof.
  intros Hm. pose proof (deque_extend_items m l Hm) as H.
  split; [exact H|].
  unfold deque_len. rewrite H, length_skipn. lia.
Qed.

Lemma deque_holds_last_maxlen_witness :
  items (deque_extend (mkDeque 3 []) [1; 2; 3; 4; 5]%float) = [3; 4; 5]%float
  /\ deque_len (deque_extend (mkDeque 3 []) [1; 2; 3; 4; 5]%float) = 3.
Proof.
  exact (deque_holds_last_maxlen 3 [1; 2; 3; 4; 5]%float ltac:(lia)).
Defined.

Lemma feed_well_formed (calls : list (float * Kline.t)) :
  forall self, well_formed self -> well_formed (fst (feed self calls)).
Proof.
  induction calls as [|[now kline] rest IH]; intros self W; [exact W|].
  simpl. destruct (check now kline self) as [self1 r] eqn:H.
  pose proof (IH self1 (check_well_formed _ _ _ _ _ W H)) as W2.
  destruct (feed self1 rest) as [self2 outs]. exact W2.
Qed.

Lemma feed_settings (calls : list (float * Kline.t)) :
  forall self, s (fst (feed self calls)) = s self.
Proof.
  induction calls as [|[now kline] rest IH]; intros self; [reflexivity|].
  simpl. destruct (check now kline self) as [self1 r] eqn:H.
  pose proof (IH self1) as H2. rewrite (check_settings _ _ _ _ _ H) in H2.
  destruct (feed self1 rest) as [self2 outs]. exact H2.
Qed.

(** X3: from [__init__] on, through any run of calls to [check], returning
    or raising, neither window ever holds more values than its capacity, and
    the capacities stay [volume_window] and [price_window + 1]. *)
Theorem windows_within_capacity (settings : Settings) (self : AnomalyDetector)
        (calls : list (float * Kline.t)) :
  init settings = Ok self ->
  let self' := fst (feed self calls) in
  maxlen (volumes self') = volume_window settings
  /\ maxlen (prices self') = price_window settings + 1
  /\ 0 <= deque_len (volumes self') <= volume_window settings
  /\ 0 <= deque_len (prices self') <= price_window settings + 1.
Proof.
  intros Hinit.
  destruct (init_well_formed _ _ Hinit) as (W & Hs & _).
  pose proof (feed_well_formed calls self W) as (Wv & Wp & Lv & Lp).
  pose proof (feed_settings calls self) as Hs'.
  cbv zeta. rewrite Hs', Hs in Wv, Wp. rewrite <- Wv, <- Wp. auto.
Qed.

Lemma windows_within_capacity_witness :
  maxlen (volumes (fst (feed detector0 (quiet_calls ++ spike_calls)))) = 30
  /\ maxlen (prices (fst (feed detector0 (quiet_calls ++ spike_calls)))) = 10 + 1
  /\ 0 <= deque_len (volumes (fst (feed detector0 (quiet_calls ++ spike_calls)))) <= 30
  /\ 0 <= deque_len (prices (fst (feed detector0 (quiet_calls ++ spike_calls)))) <= 10 + 1.
Proof.
  exact (windows_within_capacity default_settings detector0 (quiet_calls ++ spike_calls)
           eq_refl).
Defined.

(** ** [_mean_std] *)

Lemma binary_round_aux_sign (mx ex : Z) (lx : location) :
  not_below_zero (binary_round_aux prec emax false mx ex lx).
Proof.
  unfold binary_round_aux.
  destruct (shr_fexp prec emax mx ex lx) as [mrs' e'].
  destruct (shr_fexp prec emax
              (round_nearest_even (shr_m mrs') (loc_of_shr_record mrs')) e' loc_Exact)
    as [mrs'' e''].
  destruct (shr_m mrs''); simpl; auto.
  destruct (e'' <=? 971); simpl; auto.
Qed.

(** A square root is never below zero. *)
Lemma sqrt_not_below_zero (x : float) : (sqrt x <? 0)%float = false.
Proof.
  rewrite ltb_spec, sqrt_spec. change (Prim2SF 0) with (S754_zero false).
  assert (H : not_below_zero (SF64sqrt (Prim2SF x))).
  { unfold SF64sqrt, SFsqrt.
    destruct (Prim2SF x) as [sg|sg| |sg m e]; try destruct sg; simpl; auto.
    destruct (SFsqrt_core_binary prec emax (Z.pos m) e) as [[mz ez] lz].
    apply binary_round_aux_sign. }
  destruct (SF64sqrt (Prim2SF x)) as [sg|sg| |sg m e]; simpl in H; subst; reflexivity.
Qed.

(** X4: the standard deviation [_mean_std] returns is never below zero
    (it may be a NaN), whatever the window holds. *)
Theorem mean_std_std_not_negative (vals : Deque) (m sd : float) :
  _mean_std vals = Ok (m, sd) -> (sd <? 0)%float = false.
Proof.
  unfold _mean_std.
  destruct (deque_len vals =? 0); [intros [= <- <-]; reflexivity|].
  destruct (Py.truediv_int (Py.sum (items vals)) (deque_len vals)) as [mean|e];
    [|discriminate]. simpl.
  destruct (if 1 <? deque_len vals
            then (sq <- Py.sum_gen (fun x => Py.pow2 (x - mean)%float) (items vals) 0%float;;
                  Py.truediv_int sq (deque_len vals))%result
            else Ok 0%float) as [var|e]; [|discriminate]. simpl.
  unfold Py.math_sqrt. destruct (var <? 0)%float; [discriminate|]. simpl.
  intros [= <- <-]. apply sqrt_not_below_zero.
Qed.

Lemma mean_std_std_not_negative_witness :
  exists m sd, _mean_std (volumes warm) = Ok (m, sd) /\ (sd <? 0)%float = false.
Proof.
  assert (H : _mean_std (volumes warm) = Ok (101%float, 1%float))
    by (vm_compute; reflexivity).
  exists 101%float, 1%float. split; [exact H|].
  exact (mean_std_std_not_negative _ _ _ H).
Defined.

(** X5: on an empty window [_mean_std] returns [(0.0, 0.0)]; on a window of
    one value [x] it returns, without raising, the mean [(0 + x) / 1] and the
    standard deviation [0.0] (the variance is only computed from two values
    on). *)
Theorem mean_std_small_windows (m : Z) (x : float) :
  _mean_std (mkDeque m []) = Ok (0%float, 0%float)
  /\ _mean_std (mkDeque m [x]) = Ok ((0 + x) / 1, 0)%float.
Proof.
  split; [reflexivity|].
  unfold _mean_std, deque_len. simpl.
  unfold Py.truediv_int, Py.sum. simpl.
  change (Py.float_of_int 1) with (Ok 1%float). simpl.
  reflexivity.
Qed.

(** ** What [check] changes, and when *)

(** X6: klines that are not final are invisible: a run with them leaves
    the same detector as the run without them, and its outcomes are those of
    the final klines with the all-false dict at the places of the others. *)
Theorem non_final_klines_are_invisible (calls : list (float * Kline.t)) :
  forall self,
  fst (feed self calls) = fst (feed self (final_calls calls))
  /\ snd (feed self calls)
     = pad_non_final calls (snd (feed self (final_calls calls))).
Proof.
  induction calls as [|[now kline] rest IH]; intros self; [split; reflexivity|].
  unfold final_calls in *. simpl filter. simpl snd at 3 6.
  destruct (Kline.x kline) eqn:Hx.
  - simpl. rewrite Hx.
    destruct (check now kline self) as [self1 out].
    destruct (IH self1) as [IH1 IH2].
    destruct (feed self1 rest) as [self2 outs].
    destruct (feed self1 (filter (fun call => Kline.x (snd call)) rest)) as [self3 outs3].
    simpl in *. subst. split; reflexivity.
  - simpl. rewrite Hx. rewrite (check_not_final _ _ _ Hx).
    destruct (IH self) as [IH1 IH2].
    destruct (feed self rest) as [self2 outs].
    destruct (feed self (filter (fun call => Kline.x (snd call)) rest)) as [self3 outs3].
    simpl in *. subst. split; reflexivity.
Qed.

(** X7: every returning evaluation of a final kline of a new minute, alert
    or not, pushes the kline into both windows, records its minute bucket and
    leaves the settings alone.  On a detector that respects its capacities
    the volume window is afterwards the last [volume_window] of its old
    values followed by the kline's volume, and the price window the last
    [price_window + 1] of its old closes followed by the kline's close: the
    newest value is in, the oldest has left if the window was full. *)
Theorem check_evaluation_effects now kline self self' out :
  well_formed self ->
  Kline.x kline = true ->
  same_minute (last_minute_ts self) (Kline.T kline / 60000) = false ->
  check now kline self = (self', Ok out) ->
  items (volumes self')
    = last_items (volume_window (s self)) (items (volumes self) ++ [Kline.v kline])
  /\ items (prices self')
     = last_items (price_window (s self) + 1) (items (prices self) ++ [Kline.c kline])
  /\ last_minute_ts self' = Some (Kline.T kline / 60000)
  /\ s self' = s self.
Proof.
  intros W Hx Hm H.
  destruct (check_pushes _ _ _ _ _ W Hx Hm H) as (A1 & A2).
  destruct (check_appends _ _ _ _ _ Hx Hm H) as (_ & _ & A3 & A4).
  auto.
Qed.

Lemma check_evaluation_effects_witness :
  items (volumes (fst (check (clock 31) (minute_kline 31 55 5000) warm)))
    = last_items (volume_window (s warm))
        (items (volumes warm) ++ [Kline.v (minute_kline 31 55 5000)])
  /\ items (prices (fst (check (clock 31) (minute_kline 31 55 5000) warm)))
     = last_items (price_window (s warm) + 1)
         (items (prices warm) ++ [Kline.c (minute_kline 31 55 5000)])
  /\ last_minute_ts (fst (check (clock 31) (minute_kline 31 55 5000) warm))
     = Some (Kline.T (minute_kline 31 55 5000) / 60000)
  /\ s (fst (check (clock 31) (minute_kline 31 55 5000) warm)) = s warm.
Proof.
  refine (check_evaluation_effects (clock 31) (minute_kline 31 55 5000) warm
            (fst (check (clock 31) (minute_kline 31 55 5000) warm))
            (mkSignals false false true) _ eq_refl _ _).
  - vm_compute. repeat split; first [reflexivity | discriminate].
  - vm_compute; reflexivity.
  - vm_compute; reflexivity.
Defined.

(** X8: [last_alert_ts] after a returning [check]: the clock reading goes
    into the entry of the one kind that is reported (merged, else volume,
    else price) and the other entries stay; when nothing is reported, a
    suppressed trigger included, [last_alert_ts] is unchanged. *)
Theorem check_alert_times now kline self self' out :
  check now kline self = (self', Ok out) ->
  last_alert_ts self' =
    (if merged out
     then mkAlertTs (ts_volume (last_alert_ts self)) (ts_price (last_alert_ts self)) now
     else if volume out
     then mkAlertTs now (ts_price (last_alert_ts self)) (ts_merged (last_alert_ts self))
     else if price out
     then mkAlertTs (ts_volume (last_alert_ts self)) now (ts_merged (last_alert_ts self))
     else last_alert_ts self).
Proof. exact (check_records_alert now kline self self' out). Qed.

Lemma check_alert_times_witness :
  last_alert_ts (fst (check (clock 31) (minute_kline 31 50 5000) warm))
  = (if merged (mkSignals true false false)
     then mkAlertTs (ts_volume (last_alert_ts warm)) (ts_price (last_alert_ts warm))
            (clock 31)
     else if volume (mkSignals true false false)
     then mkAlertTs (clock 31) (ts_price (last_alert_ts warm))
            (ts_merged (last_alert_ts warm))
     else if price (mkSignals true false false)
     then mkAlertTs (ts_volume (last_alert_ts warm)) (clock 31)
            (ts_merged (last_alert_ts warm))
     else last_alert_ts warm).
Proof.
  refine (check_alert_times (clock 31) (minute_kline 31 50 5000) warm
            (fst (check (clock 31) (minute_kline 31 50 5000) warm))
            (mkSignals true false false) _).
  vm_compute; reflexivity.
Defined.

(** ** Cool-downs over runs *)

(** X9: once a volume alert is reported at clock reading [now], no call
    made while the clock is less than the cool-down past [now] reports a
    volume or a merged alert, however many calls there are and whatever the
    klines. *)
Theorem volume_alert_silences_run now kline self self1 out
        (calls : list (float * Kline.t)) :
  check now kline self = (self1, Ok out) ->
  volume out = true ->
  Forall (fun call => in_cooldown (s self) (fst call) now = true) calls ->
  Forall (fun r => forall out', r = Ok out' -> volume out' = false /\ merged out' = false)
         (snd (feed self1 calls)).
Proof.
  intros H Hvol Hall.
  pose proof (check_records_alert _ _ _ _ _ H) as Hts.
  pose proof (check_settings _ _ _ _ _ H) as Hs.
  destruct (check_flags_exclusive _ _ _ _ _ H) as [Hex _].
  destruct (Hex Hvol) as [_ Hmg].
  unfold record_alert in Hts. rewrite Hmg, Hvol in Hts.
  apply (volume_cooldown_run calls self1).
  rewrite Hs, Hts. simpl. exact Hall.
Qed.

Lemma volume_alert_silences_run_witness :
  Forall (fun r => forall out', r = Ok out' -> volume out' = false /\ merged out' = false)
         (snd (feed (fst (check (clock 31) (minute_kline 31 50 5000) warm))
                    after_volume_alert)).
Proof.
  refine (volume_alert_silences_run (clock 31) (minute_kline 31 50 5000) warm
            (fst (check (clock 31) (minute_kline 31 50 5000) warm))
            (mkSignals true false false) after_volume_alert _ eq_refl _).
  - vm_compute; reflexivity.
  - repeat constructor; vm_compute; reflexivity.
Defined.

(** X10: the same for a price alert: inside its cool-down no call reports
    a price or a merged alert. *)
Theorem price_alert_silences_run now kline self self1 out
        (calls : list (float * Kline.t)) :
  check now kline self = (self1, Ok out) ->
  price out = true ->
  Forall (fun call => in_cooldown (s self) (fst call) now = true) calls ->
  Forall (fun r => forall out', r = Ok out' -> price out' = false /\ merged out' = false)
         (snd (feed self1 calls)).
Proof.
  intros H Hpr Hall.
  pose proof (check_records_alert _ _ _ _ _ H) as Hts.
  pose proof (check_settings _ _ _ _ _ H) as Hs.
  destruct (check_flags_exclusive _ _ _ _ _ H) as (_ & Hex & _).
  destruct (Hex Hpr) as [Hvol Hmg].
  unfold record_alert in Hts. rewrite Hmg, Hvol, Hpr in Hts.
  apply (price_cooldown_run calls self1).
  rewrite Hs, Hts. simpl. exact Hall.
Qed.

Lemma price_alert_silences_run_witness :
  Forall (fun r => forall out', r = Ok out' -> price out' = false /\ merged out' = false)
         (snd (feed (fst (check (clock 31) (minute_kline 31 55 100) warm))
                    after_price_alert)).
Proof.
  refine (price_alert_silences_run (clock 31) (minute_kline 31 55 100) warm
            (fst (check (clock 31) (minute_kline 31 55 100) warm))
            (mkSignals false true false) after_price_alert _ eq_refl _).
  - vm_compute; reflexivity.
  - repeat constructor; vm_compute; reflexivity.
Defined.

Lemma check_same_but_ts_merged now kline a b :
  same_but_ts_merged a b ->
  snd (check now kline a) = snd (check now kline b)
  /\ same_but_ts_merged (fst (check now kline a)) (fst (check now kline b)).
Proof.
  destruct a as [sa va pa [tva tpa tma] la], b as [sb vb pb [tvb tpb tmb] lb].
  unfold same_but_ts_merged. simpl. intros (-> & -> & -> & -> & -> & ->).
  set (a := mkDetector sb vb pb (mkAlertTs tvb tpb tma) lb).
  set (b := mkDetector sb vb pb (mkAlertTs tvb tpb tmb) lb).
  destruct (Kline.x kline) eqn:Hx;
    [|rewrite !(check_not_final _ _ _ Hx); simpl; auto 10].
  destruct (same_minute lb (Kline.T kline / 60000)) eqn:Hm.
  - rewrite (check_same_minute _ _ a Hx Hm), (check_same_minute _ _ b Hx Hm).
    simpl. auto 10.
  - rewrite (check_new_minute _ _ a Hx Hm), (check_new_minute _ _ b Hx Hm).
    cbv zeta.
    change (volume_trigger a) with (volume_trigger b).
    change (price_trigger a) with (price_trigger b).
    destruct (volume_trigger b (Kline.v kline)) as [vol|e]; [|simpl; auto 10].
    destruct (price_trigger b (Kline.c kline)) as [pr|e]; [|simpl; auto 10].
    unfold report. simpl.
    destruct (vol && in_cooldown sb now tvb), (pr && in_cooldown sb now tpb), vol, pr;
      simpl; auto 10.
Qed.

(** X11: the entry ["merged"] of [last_alert_ts] is written and never
    read: whatever it holds at the start of a run, every outcome of the run
    is the same. *)
Theorem ts_merged_never_matters (calls : list (float * Kline.t)) :
  forall self t,
  snd (feed (set_ts_merged t self) calls) = snd (feed self calls).
Proof.
  assert (G : forall a b, same_but_ts_merged a b ->
                          snd (feed a calls) = snd (feed b calls)).
  { induction calls as [|[now kline] rest IH]; intros a b Hab; [reflexivity|].
    simpl. destruct (check_same_but_ts_merged now kline a b Hab) as [E1 E2].
    destruct (check now kline a) as [a1 ra], (check now kline b) as [b1 rb].
    simpl in E1, E2. subst rb.
    pose proof (IH a1 b1 E2) as E3.
    destruct (feed a1 rest) as [a2 outsa], (feed b1 rest) as [b2 outsb].
    simpl in *. congruence. }
  intros self t. apply G. unfold same_but_ts_merged, set_ts_merged. simpl. auto 10.
Qed.

(** ** Exceptions out of [check] *)

(** Where [check] raises. *)
Lemma check_raise_cases now kline self self' e :
  check now kline self = (self', Raise e) ->
  Kline.x kline = true
  /\ same_minute (last_minute_ts self) (Kline.T kline / 60000) = false
  /\ volume_trigger self (Kline.v kline) = Raise e
  /\ self' = set_last_minute_ts (Some (Kline.T kline / 60000)) self.
Proof.
  intros H.
  destruct (Kline.x kline) eqn:Hx;
    [|rewrite (check_not_final _ _ _ Hx) in H; discriminate].
  destruct (same_minute (last_minute_ts self) (Kline.T kline / 60000)) eqn:Hm;
    [rewrite (check_same_minute _ _ _ Hx Hm) in H; discriminate|].
  rewrite (check_new_minute _ _ _ Hx Hm) in H. simpl in H.
  destruct (volume_trigger self (Kline.v kline)) as [vol|e'].
  - destruct (price_trigger_returns self (Kline.c kline)) as [pr Hp].
    rewrite Hp in H. unfold report in H. discriminate.
  - injection H as <- <-. auto.
Qed.

(** [check] from the dict, by cases on what decodes. *)
Lemma check_raw_cases now kline self :
  check_raw now kline self =
    if negb (RawKline.x kline) then (self, Ok no_signals)
    else match RawKline.T kline with
         | Raise e => (self, Raise e)
         | Ok close_time_ms =>
             if same_minute (last_minute_ts self) (close_time_ms / 60000)
             then (self, Ok no_signals)
             else
               let self1 := set_last_minute_ts (Some (close_time_ms / 60000)) self in
               match RawKline.c kline, RawKline.v kline with
               | Raise e, _ => (self1, Raise e)
               | Ok _, Raise e => (self1, Raise e)
               | Ok close_price, Ok volume_sol =>
                   check now (Kline.mk close_time_ms close_price volume_sol true) self
               end
         end.
Proof.
  unfold check_raw, check.
  destruct (RawKline.x kline); [|reflexivity].
  destruct (RawKline.T kline) as [T|e]; [|reflexivity].
  cbv beta iota zeta delta [negb Kline.x Kline.T].
  destruct (same_minute (last_minute_ts self) (T / 60000)); [reflexivity|].
  destruct (RawKline.c kline) as [c|e]; [|reflexivity].
  destruct (RawKline.v kline) as [v|e]; reflexivity.
Qed.

(** On a dict whose fields decode, [check_raw] is [check]. *)
Lemma check_raw_decoded now kline self :
  check_raw now (raw_of kline) self = check now kline self.
Proof.
  rewrite check_raw_cases. unfold raw_of. simpl.
  destruct kline as [T c v [|]]; simpl.
  - destruct (same_minute (last_minute_ts self) (T / 60000)) eqn:Hm; [|reflexivity].
    symmetry. apply check_same_minute; [reflexivity | exact Hm].
  - symmetry. apply check_not_final. reflexivity.
Qed.

(** X12: whatever exception leaves [check], from the decoding of the dict
    or from the volume block, neither window has received the kline and no
    alert time has changed.  Either it was raised by [int(kline["T"])] and
    the detector is as it was, or the minute is recorded by then, and the
    same dict offered again, at whatever time, is dropped as a repeat of its
    minute. *)
Theorem check_raise_drops_the_kline now kline self self' e now' :
  check_raw now kline self = (self', Raise e) ->
  volumes self' = volumes self
  /\ prices self' = prices self
  /\ last_alert_ts self' = last_alert_ts self
  /\ ((RawKline.T kline = Raise e /\ self' = self)
      \/ (exists close_time_ms,
            RawKline.T kline = Ok close_time_ms
            /\ last_minute_ts self' = Some (close_time_ms / 60000)
            /\ check_raw now' kline self' = (self', Ok no_signals))).
Proof.
  intros H. rewrite check_raw_cases in H.
  destruct (RawKline.x kline) eqn:Hx; [|discriminate]. simpl in H.
  destruct (RawKline.T kline) as [T|e'] eqn:HT.
  - destruct (same_minute (last_minute_ts self) (T / 60000)) eqn:Hm; [discriminate|].
    assert (E : self' = set_last_minute_ts (Some (T / 60000)) self).
    { cbv zeta in H.
      destruct (RawKline.c kline) as [c|e1]; [|congruence].
      destruct (RawKline.v kline) as [v|e2]; [|congruence].
      destruct (check_raise_cases _ _ _ _ _ H) as (_ & _ & _ & ->). reflexivity. }
    subst self'. repeat split; try reflexivity.
    right. exists T. repeat split; try reflexivity.
    rewrite check_raw_cases, Hx, HT. simpl. rewrite Z.eqb_refl. reflexivity.
  - injection H as <- <-. repeat split; try reflexivity. left. auto.
Qed.

Lemma check_raise_drops_the_kline_witness :
  volumes (fst (check_raw (clock 31) (bad_volume_kline 31) warm)) = volumes warm
  /\ prices (fst (check_raw (clock 31) (bad_volume_kline 31) warm)) = prices warm
  /\ last_alert_ts (fst (check_raw (clock 31) (bad_volume_kline 31) warm))
     = last_alert_ts warm
  /\ ((RawKline.T (bad_volume_kline 31) = Raise ValueError
       /\ fst (check_raw (clock 31) (bad_volume_kline 31) warm) = warm)
      \/ (exists close_time_ms,
            RawKline.T (bad_volume_kline 31) = Ok close_time_ms
            /\ last_minute_ts (fst (check_raw (clock 31) (bad_volume_kline 31) warm))
               = Some (close_time_ms / 60000)
            /\ check_raw (clock 32) (bad_volume_kline 31)
                 (fst (check_raw (clock 31) (bad_volume_kline 31) warm))
               = (fst (check_raw (clock 31) (bad_volume_kline 31) warm),
                  Ok no_signals))).
Proof.
  refine (check_raise_drops_the_kline (clock 31) (bad_volume_kline 31) warm
            (fst (check_raw (clock 31) (bad_volume_kline 31) warm))
            ValueError (clock 32) _).
  vm_compute; reflexivity.
Defined.

(** The exception can also come out of the volume block, as on the window
    [1e200, 0.0], where the squares of [_mean_std] overflow. *)
Example check_raises_in_the_volume_block :
  check_raw (clock 3) (raw_of (minute_kline 3 50 100)) poisoned
  = (set_last_minute_ts (Some 3) poisoned, Raise OverflowError).
Proof. vm_compute; reflexivity. Qed.

Lemma check_on_failing_window now kline self e :
  _mean_std (volumes self) = Raise e ->
  (minute_volume_min (s self) <=? 0)%float = true ->
  (check now kline self = (self, Ok no_signals)
   \/ check now kline self
      = (set_last_minute_ts (Some (Kline.T kline / 60000)) self, Raise e)).
Proof.
  intros Hms Hfloor.
  destruct (Kline.x kline) eqn:Hx;
    [|left; apply check_not_final; exact Hx].
  destruct (same_minute (last_minute_ts self) (Kline.T kline / 60000)) eqn:Hm;
    [left; apply check_same_minute; assumption|].
  right. rewrite (check_new_minute _ _ _ Hx Hm). simpl.
  unfold volume_trigger. rewrite Hfloor, Hms. reflexivity.
Qed.

Lemma check_raw_on_failing_window now kline self e :
  _mean_std (volumes self) = Raise e ->
  (minute_volume_min (s self) <=? 0)%float = true ->
  exists m,
    fst (check_raw now kline self) = set_last_minute_ts m self
    /\ no_alert_while_failing e (now, kline) (snd (check_raw now kline self)).
Proof.
  intros Hms Hfloor. rewrite check_raw_cases. unfold no_alert_while_failing.
  assert (Same : self = set_last_minute_ts (last_minute_ts self) self)
    by (destruct self; reflexivity).
  destruct (RawKline.x kline);
    [|exists (last_minute_ts self); simpl; split; [exact Same | auto]].
  simpl negb. cbv iota.
  destruct (RawKline.T kline) as [T|eT] eqn:HT;
    [|exists (last_minute_ts self); simpl; split; [exact Same|];
      right; exists eT; auto].
  destruct (same_minute (last_minute_ts self) (T / 60000));
    [exists (last_minute_ts self); simpl; split; [exact Same | auto]|].
  cbv zeta.
  destruct (RawKline.c kline) as [c|ec] eqn:Hc;
    [|exists (Some (T / 60000)); simpl; split; [reflexivity|];
      right; exists ec; auto].
  destruct (RawKline.v kline) as [v|ev] eqn:Hv;
    [|exists (Some (T / 60000)); simpl; split; [reflexivity|];
      right; exists ev; auto 6].
  destruct (check_on_failing_window now (Kline.mk T c v true) self e Hms Hfloor)
    as [-> | ->].
  - exists (last_minute_ts self). simpl. split; [exact Same | auto].
  - exists (Some (T / 60000)). simpl. split; [reflexivity|]. right. exists e. auto.
Qed.

(** X13: a volume window on which [_mean_std] raises stays as it is for
    good when no minimum volume is configured ([minute_volume_min <= 0]).
    Through any run of klines, decodable or not, both windows and the alert
    times are unchanged and no call reports an alert: each returns the
    all-false dict or raises, the exception of [_mean_std] or one from
    decoding its kline.  And after the run a final kline of a new minute
    that decodes still raises the exception of [_mean_std], before anything
    is appended. *)
Theorem failing_window_is_permanent (calls : list (float * RawKline.t)) :
  forall self e,
  _mean_std (volumes self) = Raise e ->
  (minute_volume_min (s self) <=? 0)%float = true ->
  volumes (fst (feed_raw self calls)) = volumes self
  /\ prices (fst (feed_raw self calls)) = prices self
  /\ last_alert_ts (fst (feed_raw self calls)) = last_alert_ts self
  /\ Forall2 (no_alert_while_failing e) calls (snd (feed_raw self calls))
  /\ (forall now kline,
        Kline.x kline = true ->
        same_minute (last_minute_ts (fst (feed_raw self calls)))
          (Kline.T kline / 60000) = false ->
        snd (check_raw now (raw_of kline) (fst (feed_raw self calls))) = Raise e).
Proof.
  induction calls as [|[now kline] rest IH]; intros self e Hms Hfloor.
  - simpl. repeat split; try constructor.
    intros now kline Hx Hm. rewrite check_raw_decoded.
    destruct (check_on_failing_window now kline self e Hms Hfloor) as [E|E];
      [|rewrite E; reflexivity].
    rewrite (check_new_minute _ _ _ Hx Hm). simpl.
    unfold volume_trigger. rewrite Hfloor, Hms. reflexivity.
  - simpl.
    destruct (check_raw_on_failing_window now kline self e Hms Hfloor) as (m & E1 & E2).
    destruct (check_raw now kline self) as [self1 r]. simpl in E1, E2. subst self1.
    destruct (IH (set_last_minute_ts m self) e Hms Hfloor) as (Hv & Hp & Ht & Hall & Hnext).
    destruct (feed_raw (set_last_minute_ts m self) rest) as [self2 outs].
    simpl in *. repeat split; try assumption. constructor; assumption.
Qed.

Lemma failing_window_is_permanent_witness :
  volumes (fst (feed_raw poisoned mixed_calls)) = volumes poisoned
  /\ prices (fst (feed_raw poisoned mixed_calls)) = prices poisoned
  /\ last_alert_ts (fst (feed_raw poisoned mixed_calls)) = last_alert_ts poisoned
  /\ Forall2 (no_alert_while_failing OverflowError) mixed_calls
             (snd (feed_raw poisoned mixed_calls))
  /\ (forall now kline,
        Kline.x kline = true ->
        same_minute (last_minute_ts (fst (feed_raw poisoned mixed_calls)))
          (Kline.T kline / 60000) = false ->
        snd (check_raw now (raw_of kline) (fst (feed_raw poisoned mixed_calls)))
        = Raise OverflowError).
Proof.
  refine (failing_window_is_permanent mixed_calls poisoned OverflowError _ _);
    vm_compute; reflexivity.
Defined.

(** The outcomes of that run, one by one. *)
Example mixed_calls_outcomes :
  snd (feed_raw poisoned mixed_calls)
  = [Raise OverflowError; Raise ValueError; Raise KeyError; Ok no_signals;
     Raise OverflowError].
Proof. vm_compute; reflexivity. Qed.

(** ** The minute marker *)

(** X14: the de-duplication remembers the last evaluated minute only: a
    kline that was evaluated, then followed by a kline of another minute, is
    evaluated in full a second time when it is offered again, and its volume
    and close enter the windows twice.  On a detector that respects its
    capacities the volume window ends as the last [volume_window] of its old
    values followed by the three volumes, the first kline's at both ends, and
    likewise the price window. *)
Theorem dedup_remembers_last_minute_only
        now1 now2 now3 k1 k2 self self1 self2 self3 out1 out2 out3 :
  well_formed self ->
  Kline.x k1 = true ->
  Kline.x k2 = true ->
  Kline.T k2 / 60000 <> Kline.T k1 / 60000 ->
  same_minute (last_minute_ts self) (Kline.T k1 / 60000) = false ->
  check now1 k1 self = (self1, Ok out1) ->
  check now2 k2 self1 = (self2, Ok out2) ->
  check now3 k1 self2 = (self3, Ok out3) ->
  items (volumes self3)
    = last_items (volume_window (s self))
        (items (volumes self) ++ [Kline.v k1; Kline.v k2; Kline.v k1])
  /\ items (prices self3)
     = last_items (price_window (s self) + 1)
         (items (prices self) ++ [Kline.c k1; Kline.c k2; Kline.c k1]).
Proof.
  intros (Wv & Wp & Lv & Lp) Hx1 Hx2 Hne Hm1 H1 H2 H3.
  destruct (check_appends _ _ _ _ _ Hx1 Hm1 H1) as (V1 & P1 & L1 & _).
  assert (Hm2 : same_minute (last_minute_ts self1) (Kline.T k2 / 60000) = false).
  { rewrite L1. simpl. apply Z.eqb_neq. congruence. }
  destruct (check_appends _ _ _ _ _ Hx2 Hm2 H2) as (V2 & P2 & L2 & _).
  assert (Hm3 : same_minute (last_minute_ts self2) (Kline.T k1 / 60000) = false).
  { rewrite L2. simpl. apply Z.eqb_neq. exact Hne. }
  destruct (check_appends _ _ _ _ _ Hx1 Hm3 H3) as (V3 & P3 & _).
  rewrite V3, V2, V1, P3, P2, P1, <- Wv, <- Wp.
  split.
  - exact (proj1 (deque_extend_items_from [Kline.v k1; Kline.v k2; Kline.v k1]
                    (volumes self) (proj2 Lv))).
  - exact (proj1 (deque_extend_items_from [Kline.c k1; Kline.c k2; Kline.c k1]
                    (prices self) (proj2 Lp))).
Qed.

Lemma dedup_remembers_last_minute_only_witness :
  items (volumes (fst (check (clock 11) (minute_kline 9 51 103)
                         (fst (check (clock 10) (minute_kline 10 52 104)
                                 (fst (check (clock 9) (minute_kline 9 51 103)
                                         eight_quiet)))))))
    = last_items (volume_window (s eight_quiet))
        (items (volumes eight_quiet)
         ++ [Kline.v (minute_kline 9 51 103); Kline.v (minute_kline 10 52 104);
             Kline.v (minute_kline 9 51 103)])
  /\ items (prices (fst (check (clock 11) (minute_kline 9 51 103)
                           (fst (check (clock 10) (minute_kline 10 52 104)
                                   (fst (check (clock 9) (minute_kline 9 51 103)
                                           eight_quiet)))))))
     = last_items (price_window (s eight_quiet) + 1)
         (items (prices eight_quiet)
          ++ [Kline.c (minute_kline 9 51 103); Kline.c (minute_kline 10 52 104);
              Kline.c (minute_kline 9 51 103)]).
Proof.
  refine (dedup_remembers_last_minute_only
            (clock 9) (clock 10) (clock 11) (minute_kline 9 51 103) (minute_kline 10 52 104)
            eight_quiet
            (fst (check (clock 9) (minute_kline 9 51 103) eight_quiet))
            (fst (check (clock 10) (minute_kline 10 52 104)
                    (fst (check (clock 9) (minute_kline 9 51 103) eight_quiet))))
            (fst (check (clock 11) (minute_kline 9 51 103)
                    (fst (check (clock 10) (minute_kline 10 52 104)
                            (fst (check (clock 9) (minute_kline 9 51 103) eight_quiet))))))
            no_signals no_signals (mkSignals false true false)
            _ eq_refl eq_refl _ _ _ _ _).
  - vm_compute. repeat split; first [reflexivity | discriminate].
  - vm_compute. discriminate.
  - vm_compute; reflexivity.
  - vm_compute; reflexivity.
  - vm_compute; reflexivity.
  - vm_compute; reflexivity.
Defined.

(** The windows of that run, written out: the volume 103 and the close 51 of
    minute 9 are there twice, around those of minute 10. *)
Example repeated_minute_windows :
  items (volumes (fst (feed eight_quiet
                         [(clock 9, minute_kline 9 51 103);
                          (clock 10, minute_kline 10 52 104);
                          (clock 11, minute_kline 9 51 103)])))
    = items (volumes eight_quiet) ++ [103; 104; 103]%float
  /\ items (prices (fst (feed eight_quiet
                           [(clock 9, minute_kline 9 51 103);
                            (clock 10, minute_kline 10 52 104);
                            (clock 11, minute_kline 9 51 103)])))
     = items (prices eight_quiet) ++ [51; 52; 51]%float.
Proof. repeat split; vm_compute; reflexivity. Qed.

(** ** Degenerate prices and volumes *)

(** X15: with a baseline of zero no division takes place (the change is
    taken as zero percent), so under a positive threshold a kline evaluated
    against a zero baseline never sets the [price] flag, whatever its close. *)
Theorem zero_baseline_no_price_alert now kline self self' out :
  (baseline self (Kline.c kline) =? 0)%float = true ->
  (0 <? price_pct_change (s self))%float = true ->
  check now kline self = (self', Ok out) ->
  price out = false /\ merged out = false.
Proof.
  intros Hb Hthr H. destruct (check_cases _ _ _ _ _ H) as [E|[Hx Hm]].
  - subst out. split; reflexivity.
  - destruct (check_signals _ _ _ _ _ Hx Hm H) as (vol & pr & _ & Hp & E).
    cbv zeta in E. subst out. simpl.
    assert (pr = false) as ->.
    { unfold price_trigger in Hp. rewrite Hb in Hp. simpl in Hp.
      change (abs 0) with 0%float in Hp.
      rewrite (ltb_leb_false _ _ Hthr) in Hp.
      destruct (price_window (s self) <=? deque_len (prices self)); congruence. }
    simpl. rewrite andb_false_r. split; reflexivity.
Qed.

Lemma zero_baseline_no_price_alert_witness :
  price (mkSignals false false false) = false
  /\ merged (mkSignals false false false) = false.
Proof.
  refine (zero_baseline_no_price_alert (clock 11) (minute_kline 11 1000000 100) zero_closes
            (fst (check (clock 11) (minute_kline 11 1000000 100) zero_closes))
            (mkSignals false false false) _ _ _);
    vm_compute; reflexivity.
Defined.

Lemma sub_nan_r (a : float) : (a - nan)%float = nan.
Proof.
  apply Prim2SF_inj. rewrite sub_spec. change (Prim2SF nan) with S754_nan.
  unfold SF64sub, SFsub. destruct (Prim2SF a); reflexivity.
Qed.

Lemma sub_nan_l (b : float) : (nan - b)%float = nan.
Proof.
  apply Prim2SF_inj. rewrite sub_spec. change (Prim2SF nan) with S754_nan. reflexivity.
Qed.

Lemma add_nan_r (a : float) : (a + nan)%float = nan.
Proof.
  apply Prim2SF_inj. rewrite add_spec. change (Prim2SF nan) with S754_nan.
  unfold SF64add, SFadd. destruct (Prim2SF a); reflexivity.
Qed.

Lemma add_nan_l (b : float) : (nan + b)%float = nan.
Proof.
  apply Prim2SF_inj. rewrite add_spec. change (Prim2SF nan) with S754_nan. reflexivity.
Qed.

Lemma div_nan_l (b : float) : (nan / b)%float = nan.
Proof.
  apply Prim2SF_inj. rewrite div_spec. change (Prim2SF nan) with S754_nan. reflexivity.
Qed.

Lemma div_nan_r (a : float) : (a / nan)%float = nan.
Proof.
  apply Prim2SF_inj. rewrite div_spec. change (Prim2SF nan) with S754_nan.
  unfold SF64div, SFdiv. destruct (Prim2SF a); reflexivity.
Qed.

Lemma leb_nan_r (a : float) : (a <=? nan)%float = false.
Proof.
  rewrite leb_spec. change (Prim2SF nan) with S754_nan.
  unfold SFleb, SFcompare. destruct (Prim2SF a); reflexivity.
Qed.

(** A sum that has met a NaN is a NaN. *)
Lemma sum_from_nan (l : list float) : fold_left PrimFloat.add l nan = nan.
Proof.
  induction l as [|x l IH]; [reflexivity|]. simpl. rewrite add_nan_l. exact IH.
Qed.

Lemma sum_with_nan (l : list float) :
  In nan l -> forall acc, fold_left PrimFloat.add l acc = nan.
Proof.
  induction l as [|x l IH]; intros Hin acc; [contradiction|].
  simpl. destruct Hin as [->|Hin].
  - rewrite add_nan_r. apply sum_from_nan.
  - apply IH. exact Hin.
Qed.

Lemma sum_gen_about_nan (l : list float) :
  forall acc, l <> [] ->
  Py.sum_gen (fun x => Py.pow2 (x - nan)%float) l acc = Ok nan.
Proof.
  induction l as [|x l IH]; intros acc Hne; [congruence|].
  simpl. rewrite sub_nan_r. change (Py.pow2 nan) with (Ok nan). simpl.
  rewrite add_nan_r.
  destruct l as [|y l]; [reflexivity|]. apply IH. discriminate.
Qed.

(** With a NaN in the window, the standard deviation [_mean_std] returns is
    not above zero (it is a NaN, or [0.0] for a window of one). *)
Lemma mean_std_with_nan (vals : Deque) (m sd : float) :
  In nan (items vals) ->
  _mean_std vals = Ok (m, sd) ->
  (0 <? sd)%float = false.
Proof.
  intros Hin. unfold _mean_std.
  destruct (deque_len vals =? 0); [intros [= <- <-]; reflexivity|].
  unfold Py.sum. rewrite (sum_with_nan _ Hin).
  unfold Py.truediv_int.
  destruct (Py.float_of_int (deque_len vals)) as [b|e]; [|discriminate]. simpl.
  unfold Py.truediv. destruct (b =? 0)%float; [discriminate|]. simpl.
  rewrite div_nan_l.
  destruct (1 <? deque_len vals).
  - rewrite sum_gen_about_nan by (destruct (items vals); [contradiction | discriminate]).
    simpl. rewrite div_nan_l. change (Py.math_sqrt nan) with (Ok nan). simpl.
    intros [= <- <-]. reflexivity.
  - simpl. change (Py.math_sqrt 0) with (Ok 0%float). simpl.
    intros [= <- <-]. reflexivity.
Qed.

(** X16: a NaN never raises an alert when the thresholds are positive.  A
    kline whose volume is a NaN, or one evaluated while the volume window
    holds a NaN, leaves the [volume] flag false; a kline whose close is a
    NaN, or one evaluated against a NaN baseline, leaves the [price] flag
    false. *)
Theorem nan_never_alerts now kline self self' out :
  (0 <? volume_zscore (s self))%float = true ->
  (0 <? price_pct_change (s self))%float = true ->
  check now kline self = (self', Ok out) ->
  (Kline.v kline = nan \/ In nan (items (volumes self)) ->
   volume out = false /\ merged out = false)
  /\ (Kline.c kline = nan \/ baseline self (Kline.c kline) = nan ->
      price out = false /\ merged out = false).
Proof.
  intros Hz Hp H. destruct (check_cases _ _ _ _ _ H) as [E|[Hx Hm]].
  - subst out. split; intros _; split; reflexivity.
  - destruct (check_signals _ _ _ _ _ Hx Hm H) as (vol & pr & Hv & Hpr & E).
    cbv zeta in E. subst out. simpl. split.
    + intros Hnan. assert (vol = false) as ->; [|split; reflexivity].
      unfold volume_trigger in Hv.
      destruct ((minute_volume_min (s self) <=? 0)%float
                || (minute_volume_min (s self) <=? Kline.v kline)%float);
        [|congruence].
      destruct (_mean_std (volumes self)) as [[mean_v std_v]|e] eqn:Hms; [|discriminate].
      simpl in Hv.
      assert (Z : exists z,
                 (if (0 <? std_v)%float
                  then Py.truediv (Kline.v kline - mean_v)%float std_v
                  else Ok 0%float) = Ok z
                 /\ (volume_zscore (s self) <=? z)%float = false).
      { destruct (0 <? std_v)%float eqn:Hsd.
        - destruct Hnan as [Hv0|Hin];
            [|rewrite (mean_std_with_nan _ _ _ Hin Hms) in Hsd; discriminate].
          rewrite Hv0, sub_nan_l. unfold Py.truediv.
          rewrite (ltb_eqb_false _ _ Hsd).
          eexists. split; [reflexivity|]. rewrite div_nan_l. apply leb_nan_r.
        - eexists. split; [reflexivity|]. apply ltb_leb_false. exact Hz. }
      destruct Z as (z & Ez & Lz). rewrite Ez in Hv. simpl in Hv.
      destruct (min_samples (s self)) as [need|e]; [|discriminate].
      simpl in Hv. rewrite Lz, andb_false_r in Hv. congruence.
    + intros Hnan. assert (pr = false) as ->;
        [|simpl; rewrite andb_false_r; split; reflexivity].
      unfold price_trigger in Hpr.
      destruct (price_window (s self) <=? deque_len (prices self)); [|congruence].
      destruct (baseline self (Kline.c kline) =? 0)%float eqn:E0; simpl in Hpr.
      * change (abs 0) with 0%float in Hpr.
        rewrite (ltb_leb_false _ _ Hp) in Hpr. congruence.
      * unfold Py.truediv in Hpr. rewrite E0 in Hpr. simpl in Hpr.
        assert (Q : ((Kline.c kline - baseline self (Kline.c kline))
                     / baseline self (Kline.c kline))%float = nan).
        { destruct Hnan as [->| ->].
          - rewrite sub_nan_l. apply div_nan_l.
          - apply div_nan_r. }
        rewrite Q in Hpr. change (abs (nan * 100)) with nan in Hpr.
        rewrite leb_nan_r in Hpr. congruence.
Qed.

Lemma nan_never_alerts_witness :
  (Kline.v (minute_kline 32 50 nan) = nan \/ In nan (items (volumes after_nan)) ->
   volume no_signals = false /\ merged no_signals = false)
  /\ (Kline.c (minute_kline 32 50 nan) = nan
      \/ baseline after_nan (Kline.c (minute_kline 32 50 nan)) = nan ->
      price no_signals = false /\ merged no_signals = false).
Proof.
  refine (nan_never_alerts (clock 32) (minute_kline 32 50 nan) after_nan
            (fst (check (clock 32) (minute_kline 32 50 nan) after_nan))
            no_signals _ _ _);
    vm_compute; reflexivity.
Defined.

(** ** [ws_loop] with its messages *)

Lemma sleeps_app (a b : list Event) : sleeps (a ++ b) = sleeps a ++ sleeps b.
Proof.
  induction a as [|[k sg|sec] a IH]; simpl; [reflexivity | exact IH | f_equal; exact IH].
Qed.

Lemma alerts_of_app (a b : list Event) : alerts_of (a ++ b) = alerts_of a ++ alerts_of b.
Proof.
  induction a as [|[k sg|sec] a IH]; simpl; [reflexivity | f_equal; exact IH | exact IH].
Qed.

(** What [evaluate_and_notify] hands back is at most one alert and no
    sleep; the alert carries what [check] returned. *)
Lemma evaluate_and_notify_events now send_ok k detector detector' events :
  evaluate_and_notify now send_ok k detector = (detector', Some events) ->
  sleeps events = [] /\ Forall sound_alert (alerts_of events).
Proof.
  unfold evaluate_and_notify.
  destruct (check now k detector) as [d' [signals|e]] eqn:H; [|discriminate].
  destruct (any_signal signals) eqn:Hany.
  - destruct send_ok; [|discriminate]. intros [= <- <-]. simpl.
    split; [reflexivity|]. constructor; [|constructor].
    unfold sound_alert. simpl. split.
    + destruct (check_cases _ _ _ _ _ H) as [E|[Hx _]]; [|exact Hx].
      subst signals. discriminate.
    + destruct (check_flags_exclusive _ _ _ _ _ H) as (E1 & E2 & E3).
      unfold one_signal, any_signal in *.
      destruct (volume signals), (price signals), (merged signals);
        try reflexivity; try discriminate;
        try (destruct (E1 eq_refl); discriminate);
        try (destruct (E2 eq_refl); discriminate).
  - intros [= <- <-]. simpl. split; [reflexivity | constructor].
Qed.

Lemma message_loop_events (msgs : list Message) :
  forall detector,
  sleeps (snd (fst (message_loop msgs detector))) = []
  /\ Forall sound_alert (alerts_of (snd (fst (message_loop msgs detector)))).
Proof.
  induction msgs as [|msg rest IH]; intros detector; [simpl; auto|].
  destruct msg as [[[k|]|e] now send_ok| | |]; simpl; auto.
  destruct (Kline.x k); [|apply IH].
  destruct (evaluate_and_notify now send_ok k detector) as [d' [alerts|]] eqn:E;
    [|simpl; auto].
  destruct (evaluate_and_notify_events _ _ _ _ _ _ E) as [S1 A1].
  destruct (IH d') as [S2 A2].
  destruct (message_loop rest d') as [[d'' alerts'] raised]. simpl in *.
  rewrite sleeps_app, alerts_of_app, S1, S2. split; [reflexivity|].
  apply Forall_app. auto.
Qed.

Lemma handler_events p detector detector' events :
  handler p detector = (detector', Some events) ->
  sleeps events = [] /\ Forall sound_alert (alerts_of events).
Proof.
  unfold handler. destruct (fallback p) as [[[o now] send_ok]|].
  - apply evaluate_and_notify_events.
  - intros [= <- <-]. simpl. auto.
Qed.

(** A pass of the loop and a pass of the back-off model agree. *)
Lemma ws_iteration_pass p st :
  match ws_pass (loop_backoff st) (attempt_of p st) with
  | None =>
      snd (ws_iteration p st) = None /\ sleeps (fst (ws_iteration p st)) = []
  | Some (slept, backoff') =>
      sleeps (fst (ws_iteration p st)) = [slept]
      /\ exists detector, snd (ws_iteration p st) = Some (mkLoop backoff' detector)
  end.
Proof.
  unfold ws_iteration, attempt_of, try_block, ws_pass.
  destruct (connects p).
  - pose proof (message_loop_events (messages p) (loop_detector st)) as [S1 _].
    destruct (message_loop (messages p) (loop_detector st)) as [[d1 al] raised].
    simpl in S1. destruct raised; simpl.
    + destruct (handler p d1) as [d2 [al'|]] eqn:E; simpl.
      * destruct (handler_events _ _ _ _ E) as [S2 _].
        rewrite !sleeps_app, S1, S2. simpl. split; [reflexivity | eauto].
      * auto.
    + rewrite !sleeps_app, S1. simpl. split; [reflexivity | eauto].
  - simpl. destruct (handler p (loop_detector st)) as [d2 [al'|]] eqn:E; simpl.
    + destruct (handler_events _ _ _ _ E) as [S2 _].
      rewrite sleeps_app, S2. simpl. split; [reflexivity | eauto].
    + auto.
Qed.

Lemma ws_iterations_sleeps (ps : list Pass) :
  forall st,
  sleeps (fst (ws_iterations ps st)) = ws_passes (loop_backoff st) (attempts_of ps st).
Proof.
  induction ps as [|p rest IH]; intros st; [reflexivity|].
  simpl. pose proof (ws_iteration_pass p st) as H.
  destruct (ws_pass (loop_backoff st) (attempt_of p st)) as [[slept backoff']|].
  - destruct H as [S1 [d E]].
    destruct (ws_iteration p st) as [events final]. simpl in *. subst final.
    specialize (IH (mkLoop backoff' d)). simpl in IH.
    destruct (ws_iterations rest (mkLoop backoff' d)) as [events' final'].
    simpl in *. rewrite sleeps_app, S1, IH. reflexivity.
  - destruct H as [E S1].
    destruct (ws_iteration p st) as [events final]. simpl in *. subst final.
    simpl. exact S1.
Qed.

Lemma ws_iterations_count (ps : list Pass) :
  forall st,
  snd (ws_iterations ps st) <> None ->
  length (sleeps (fst (ws_iterations ps st))) = length ps.
Proof.
  induction ps as [|p rest IH]; intros st; [reflexivity|].
  simpl. pose proof (ws_iteration_pass p st) as H.
  destruct (ws_pass (loop_backoff st) (attempt_of p st)) as [[slept backoff']|].
  - destruct H as [S1 [d E]].
    destruct (ws_iteration p st) as [events final]. simpl in *. subst final.
    specialize (IH (mkLoop backoff' d)).
    destruct (ws_iterations rest (mkLoop backoff' d)) as [events' final'].
    simpl in *. intros Hf. rewrite sleeps_app, S1. simpl. f_equal. apply IH. exact Hf.
  - destruct H as [E S1].
    destruct (ws_iteration p st) as [events final]. simpl in *. subst final.
    simpl. intros Hf. contradiction.
Qed.

(** X17: the sleeps of [ws_loop], with everything that goes through the
    loop: they are the sleeps of the back-off schedule for the way the passes
    end (refused, ended, raised), none is below one second or above sixty,
    and as long as no exception leaves the loop there is exactly one sleep
    per pass, alerts or not. *)
Theorem ws_loop_run_sleeps settings ps events final :
  ws_loop_run settings ps = Ok (events, final) ->
  forallb (fun w => (1 <=? w) && (w <=? 60))%float (sleeps events) = true
  /\ (final <> None -> length (sleeps events) = length ps)
  /\ exists detector,
       init settings = Ok detector
       /\ sleeps events = ws_loop (attempts_of ps (mkLoop 1 detector)).
Proof.
  unfold ws_loop_run. destruct (init settings) as [detector|e]; [|discriminate].
  simpl. intros [= H].
  pose proof (ws_iterations_sleeps ps (mkLoop 1 detector)) as S1.
  pose proof (ws_iterations_count ps (mkLoop 1 detector)) as S2.
  rewrite H in S1, S2. simpl in S1, S2. split; [|split].
  - rewrite S1. apply ws_passes_bounds. left. reflexivity.
  - exact S2.
  - exists detector. split; [reflexivity | exact S1].
Qed.

Lemma ws_loop_run_sleeps_witness :
  forallb (fun w => (1 <=? w) && (w <=? 60))%float
    (sleeps (fst (ws_iterations outage (mkLoop 1 detector0)))) = true
  /\ (snd (ws_iterations outage (mkLoop 1 detector0)) <> None ->
      length (sleeps (fst (ws_iterations outage (mkLoop 1 detector0)))) = length outage)
  /\ exists detector,
       init default_settings = Ok detector
       /\ sleeps (fst (ws_iterations outage (mkLoop 1 detector0)))
          = ws_loop (attempts_of outage (mkLoop 1 detector)).
Proof.
  refine (ws_loop_run_sleeps default_settings outage
            (fst (ws_iterations outage (mkLoop 1 detector0)))
            (snd (ws_iterations outage (mkLoop 1 detector0))) _).
  vm_compute; reflexivity.
Defined.

Lemma ws_iteration_alerts p st :
  Forall sound_alert (alerts_of (fst (ws_iteration p st))).
Proof.
  unfold ws_iteration, try_block.
  destruct (connects p).
  - pose proof (message_loop_events (messages p) (loop_detector st)) as [_ A1].
    destruct (message_loop (messages p) (loop_detector st)) as [[d1 al] raised].
    simpl in A1. destruct raised.
    + destruct (handler p d1) as [d2 [al'|]] eqn:E; simpl; [|exact A1].
      destruct (handler_events _ _ _ _ E) as [_ A2].
      rewrite !alerts_of_app. simpl. rewrite app_nil_r. apply Forall_app. auto.
    + simpl. rewrite alerts_of_app. simpl. rewrite app_nil_r. exact A1.
  - destruct (handler p (loop_detector st)) as [d2 [al'|]] eqn:E; simpl; [|constructor].
    destruct (handler_events _ _ _ _ E) as [_ A2].
    rewrite alerts_of_app. simpl. rewrite app_nil_r. exact A2.
Qed.

(** X18: whatever the connections deliver and the fallback returns, every
    alert [ws_loop] sends is for a final kline and has exactly one of the
    flags volume, price and merged set. *)
Theorem alerts_are_final_with_one_flag (ps : list Pass) :
  forall st, Forall sound_alert (alerts_of (fst (ws_iterations ps st))).
Proof.
  induction ps as [|p rest IH]; intros st; [constructor|].
  simpl. pose proof (ws_iteration_alerts p st) as A1.
  destruct (ws_iteration p st) as [events [st'|]]; [|exact A1].
  specialize (IH st').
  destruct (ws_iterations rest st') as [events' final]. simpl in *.
  rewrite alerts_of_app. apply Forall_app. auto.
Qed.

(** X19: an error message or a close message ends the connection as the end
    of the stream does: what came before it counts, what comes after it is
    never read.  A text message that cannot be decoded ends the connection
    too, and the messages after it are not read either; it does so by an
    exception, which takes the pass to the handler, unless the loop has been
    left on a [break] before reaching it. *)
Theorem connection_ends_at_first_break (pre post : list Message) :
  forall detector,
  message_loop (pre ++ ErrorMsg :: post) detector = message_loop pre detector
  /\ message_loop (pre ++ CloseMsg :: post) detector = message_loop pre detector
  /\ (forall e now send_ok,
        message_loop (pre ++ Text (Raise e) now send_ok :: post) detector
        = (fst (message_loop pre detector),
           snd (message_loop pre detector) || negb (existsb breaks pre))).
Proof.
  induction pre as [|msg rest IH]; intros detector.
  - simpl. repeat split; reflexivity.
  - destruct msg as [[[k|]|e'] now' send_ok'| | |]; simpl;
      try apply IH; try (repeat split; reflexivity).
    destruct (Kline.x k); [|apply IH].
    destruct (evaluate_and_notify now' send_ok' k detector) as [d' [alerts|]];
      [|repeat split; reflexivity].
    destruct (IH d') as (E1 & E2 & E3).
    rewrite E1, E2. split; [reflexivity|]. split; [reflexivity|].
    intros e now send_ok. rewrite E3.
    destruct (message_loop rest d') as [[d'' alerts'] raised]. reflexivity.
Qed.

Lemma feed_length (calls : list (float * Kline.t)) :
  forall self, length (snd (feed self calls)) = length calls.
Proof.
  induction calls as [|[now kline] rest IH]; intros self; [reflexivity|].
  simpl. destruct (check now kline self) as [self1 out].
  specialize (IH self1). destruct (feed self1 rest) as [self2 outs].
  simpl in *. f_equal. exact IH.
Qed.

Lemma feed_app (a b : list (float * Kline.t)) :
  forall self,
  feed self (a ++ b)
  = (fst (feed (fst (feed self a)) b),
     snd (feed self a) ++ snd (feed (fst (feed self a)) b)).
Proof.
  induction a as [|[now kline] rest IH]; intros self.
  - simpl. destruct (feed self b). reflexivity.
  - simpl. destruct (check now kline self) as [self1 out].
    rewrite (IH self1).
    destruct (feed self1 rest) as [self2 outs]. simpl. reflexivity.
Qed.

Lemma flagged_app (a b : list (float * Kline.t)) :
  forall outs_a outs_b,
  length outs_a = length a ->
  flagged (a ++ b) (outs_a ++ outs_b) = flagged a outs_a ++ flagged b outs_b.
Proof.
  induction a as [|[now kline] rest IH]; intros [|out outs_a] outs_b Hlen;
    try discriminate.
  - reflexivity.
  - simpl in Hlen. injection Hlen as Hlen. simpl.
    destruct out as [signals|e]; [|apply IH; exact Hlen].
    destruct (any_signal signals); [simpl; f_equal|]; apply IH; exact Hlen.
Qed.

Lemma message_loop_feed (msgs : list Message) :
  forall detector detector' events,
  message_loop msgs detector = (detector', events, false) ->
  detector' = fst (feed detector (offered msgs))
  /\ alerts_of events
     = flagged (offered msgs) (snd (feed detector (offered msgs)))
  /\ sleeps events = []
  /\ Forall (fun r => exists out, r = Ok out) (snd (feed detector (offered msgs))).
Proof.
  induction msgs as [|msg rest IH]; intros detector detector' events H.
  - simpl in H. injection H as <- <-. simpl. auto.
  - destruct msg as [[[k|]|e] now send_ok| | |]; simpl in H |- *;
      try (apply IH; exact H);
      try discriminate;
      try (injection H as <- <-; simpl; auto).
    destruct (Kline.x k) eqn:Hx.
    + unfold evaluate_and_notify in H.
      destruct (check now k detector) as [d1 [signals|e]]; [|discriminate].
      assert (Hal : exists alerts,
                 alerts_of alerts
                 = (if any_signal signals then [(k, signals)] else [])
                 /\ sleeps alerts = []
                 /\ (let '(detector'', alerts', raised) := message_loop rest d1 in
                     (detector'', alerts ++ alerts', raised))
                    = (detector', events, false)).
      { destruct (any_signal signals).
        - destruct send_ok; [|discriminate]. exists [Alert k signals].
          split; [reflexivity | split; [reflexivity | exact H]].
        - exists []. split; [reflexivity | split; [reflexivity | exact H]]. }
      clear H. destruct Hal as (alerts & Ha & Hs & H).
      destruct (message_loop rest d1) as [[d2 alerts'] raised] eqn:E.
      injection H as <- <- ->.
      destruct (IH _ _ _ E) as (ED & EA & ES & EF).
      destruct (feed d1 (offered rest)) as [d3 outs]. simpl in *.
      rewrite alerts_of_app, sleeps_app, Ha, Hs, EA, ES.
      repeat split; try assumption.
      * destruct (any_signal signals); reflexivity.
      * constructor; [eauto | exact EF].
    + rewrite (check_not_final _ _ _ Hx).
      destruct (IH _ _ _ H) as (ED & EA & ES & EF).
      destruct (feed detector (offered rest)) as [d3 outs]. simpl in *.
      repeat split; try assumption. constructor; [eauto | exact EF].
Qed.

(** X20: a connection that ends without an exception has done what [feed]
    does with the klines it offered up to its end: the detector it leaves is
    the detector of that run, every call to [check] has returned, and the
    alerts sent are the klines whose outcome has a flag set, in order and
    with that outcome.  The klines that are not final are among them: that
    the loop skips them and that [check] turns them away comes to the
    same. *)
Theorem connection_is_a_feed msgs detector detector' events :
  message_loop msgs detector = (detector', events, false) ->
  detector' = fst (feed detector (offered msgs))
  /\ alerts_of events
     = flagged (offered msgs) (snd (feed detector (offered msgs)))
  /\ Forall (fun r => exists out, r = Ok out) (snd (feed detector (offered msgs))).
Proof.
  intros H. destruct (message_loop_feed _ _ _ _ H) as (E1 & E2 & _ & E3). auto.
Qed.

Lemma connection_is_a_feed_witness :
  fst (fst (message_loop spike_messages warm))
    = fst (feed warm (offered spike_messages))
  /\ alerts_of (snd (fst (message_loop spike_messages warm)))
     = flagged (offered spike_messages) (snd (feed warm (offered spike_messages)))
  /\ Forall (fun r => exists out, r = Ok out)
            (snd (feed warm (offered spike_messages))).
Proof.
  refine (connection_is_a_feed spike_messages warm
            (fst (fst (message_loop spike_messages warm)))
            (snd (fst (message_loop spike_messages warm))) _).
  vm_compute; reflexivity.
Defined.

(** X21: an alert that cannot be sent is lost.  [check] has returned its
    flags and recorded the alert time, then formatting or sending raises:
    the rest of the connection is not read, the handler asks the fallback,
    and a row of the same minute is turned away as a repeat.  The pass ends
    with its sleep and no alert, and the cool-down of the alert that nobody
    received has begun. *)
Theorem failed_send_loses_the_alert now k signals st detector' o now' send_ok' rest :
  check now k (loop_detector st) = (detector', Ok signals) ->
  any_signal signals = true ->
  row_T o / 60000 = Kline.T k / 60000 ->
  ws_iteration
    (mkPass true (Text (Ok (Some k)) now false :: rest) (Some (o, now', send_ok'))) st
  = ([Sleep 1], Some (mkLoop (Py.min (1 * 2) 60) detector'))
  /\ last_alert_ts detector'
     = record_alert now signals (last_alert_ts (loop_detector st)).
Proof.
  intros H Hany Hrow.
  destruct (check_cases _ _ _ _ _ H) as [E|[Hx Hm]]; [subst signals; discriminate|].
  destruct (check_appends _ _ _ _ _ Hx Hm H) as (_ & _ & Hl & _).
  split; [|exact (check_records_alert _ _ _ _ _ H)].
  unfold ws_iteration, try_block, handler. simpl.
  rewrite Hx. unfold evaluate_and_notify at 1. rewrite H, Hany.
  unfold evaluate_and_notify.
  rewrite (check_same_minute now' (rest_kline o) detector').
  - reflexivity.
  - reflexivity.
  - rewrite Hl. simpl. rewrite Hrow. apply Z.eqb_refl.
Qed.

Lemma failed_send_loses_the_alert_witness :
  ws_iteration
    (mkPass true
       (Text (Ok (Some (minute_kline 31 50 5000))) (clock 31) false
        :: [Text (Ok (Some (minute_kline 32 50 100))) (clock 32) true])
       (Some (mkRow (Kline.T (minute_kline 31 50 5000)) 50 5000, clock 32, true)))
    (mkLoop 8 warm)
  = ([Sleep 1],
     Some (mkLoop (Py.min (1 * 2) 60)
             (fst (check (clock 31) (minute_kline 31 50 5000) warm))))
  /\ last_alert_ts (fst (check (clock 31) (minute_kline 31 50 5000) warm))
     = record_alert (clock 31) (mkSignals true false false)
         (last_alert_ts (loop_detector (mkLoop 8 warm))).
Proof.
  refine (failed_send_loses_the_alert
            (clock 31) (minute_kline 31 50 5000) (mkSignals true false false)
            (mkLoop 8 warm)
            (fst (check (clock 31) (minute_kline 31 50 5000) warm))
            (mkRow (Kline.T (minute_kline 31 50 5000)) 50 5000) (clock 32) true
            [Text (Ok (Some (minute_kline 32 50 100))) (clock 32) true] _ _ _);
    vm_compute; reflexivity.
Defined.

Lemma ws_iterations_ended (ps : list Pass) :
  forall st events st',
  Forall (fun a => a = StreamEnded) (attempts_of ps st) ->
  ws_iterations ps st = (events, Some st') ->
  loop_detector st'
    = fst (feed (loop_detector st) (flat_map (fun p => offered (messages p)) ps))
  /\ alerts_of events
     = flagged (flat_map (fun p => offered (messages p)) ps)
         (snd (feed (loop_detector st) (flat_map (fun p => offered (messages p)) ps))).
Proof.
  induction ps as [|p rest IH]; intros st events st' Hall H.
  - simpl in H. injection H as <- <-. simpl. auto.
  - simpl in Hall, H. inversion Hall as [|a l Ha Hrest]; subst.
    unfold attempt_of, try_block in Ha. unfold ws_iteration, try_block in H, Hrest.
    destruct (connects p); [|discriminate].
    destruct (message_loop (messages p) (loop_detector st)) as [[d1 al] raised] eqn:E.
    destruct raised; [discriminate|].
    destruct (message_loop_feed _ _ _ _ E) as (ED & EA & ES & _).
    simpl in H, Hrest.
    match type of H with
    | context [ws_iterations rest ?st1] =>
        destruct (ws_iterations rest st1) as [events' final] eqn:E'
    end.
    injection H as <- ->.
    destruct (IH _ _ _ Hrest E') as [ID IA]. simpl in ID, IA.
    simpl flat_map. rewrite feed_app. simpl fst. simpl snd.
    rewrite <- ED. split; [exact ID|].
    rewrite !alerts_of_app. simpl. rewrite app_nil_r.
    rewrite flagged_app by apply feed_length.
    rewrite EA, IA. reflexivity.
Qed.

(** X22: reconnecting does not reset the detector.  Over passes that each
    connect and end with the stream or on an error or close message, the
    detector after the last pass is the detector of one run of [check] over
    the klines of all the connections in order, and the alerts sent are
    those of that run: the windows, the minute marker and the alert times
    are carried from one connection to the next. *)
Theorem reconnects_keep_the_detector ps st events st' :
  Forall (fun a => a = StreamEnded) (attempts_of ps st) ->
  ws_iterations ps st = (events, Some st') ->
  loop_detector st'
    = fst (feed (loop_detector st) (flat_map (fun p => offered (messages p)) ps))
  /\ alerts_of events
     = flagged (flat_map (fun p => offered (messages p)) ps)
         (snd (feed (loop_detector st) (flat_map (fun p => offered (messages p)) ps))).
Proof. exact (ws_iterations_ended ps st events st'). Qed.

Lemma reconnects_keep_the_detector_witness :
  loop_detector after_two_connections
    = fst (feed (loop_detector (mkLoop 1 warm))
             (flat_map (fun p => offered (messages p)) two_connections))
  /\ alerts_of (fst (ws_iterations two_connections (mkLoop 1 warm)))
     = flagged (flat_map (fun p => offered (messages p)) two_connections)
         (snd (feed (loop_detector (mkLoop 1 warm))
                 (flat_map (fun p => offered (messages p)) two_connections))).
Proof.
  refine (reconnects_keep_the_detector two_connections (mkLoop 1 warm)
            (fst (ws_iterations two_connections (mkLoop 1 warm)))
            after_two_connections _ _).
  - vm_compute. repeat constructor.
  - vm_compute; reflexivity.
Defined.

(** ** The price baseline over a run *)

(** X23: the baseline of the price block after a run of evaluated klines,
    from [__init__] on.  It is the oldest close in the window, and the window
    does not hold the current close yet: after at most [price_window + 1]
    evaluations the baseline is the close of the very first one (the
    kline's own close when there was none), after more it is the close from
    [price_window + 1] evaluations before the kline at hand. *)
Theorem price_baseline_over_a_run (settings : Settings) (self : AnomalyDetector)
        (calls : list (float * Kline.t)) (close_price : float) :
  init settings = Ok self ->
  0 <= price_window settings ->
  evaluated self calls ->
  baseline (fst (feed self calls)) close_price
    = nth (length calls - (Z.to_nat (price_window settings) + 1)) (closes calls)
        close_price.
Proof.
  intros Hinit Hpw Hev. destruct (init_ok _ _ Hinit) as (-> & _ & E).
  unfold baseline. destruct (feed_prices calls _ Hev) as [-> _]. simpl prices.
  rewrite deque_extend_items by exact E.
  assert (L : length (closes calls) = length calls) by (unfold closes; apply length_map).
  rewrite L.
  replace (Z.to_nat (price_window settings + 1))
    with (Z.to_nat (price_window settings) + 1)%nat by lia.
  generalize (length calls - (Z.to_nat (price_window settings) + 1))%nat as k.
  generalize (closes calls) as l.
  induction l as [|y l IH]; intros k; destruct k; simpl; auto.
Qed.

Lemma price_baseline_over_a_run_witness :
  baseline (fst (feed detector0 (firstn 10 drift_calls))) 102.5
    = nth (length (firstn 10 drift_calls)
           - (Z.to_nat (price_window default_settings) + 1))
        (closes (firstn 10 drift_calls)) 102.5%float.
Proof.
  refine (price_baseline_over_a_run default_settings detector0
            (firstn 10 drift_calls) 102.5 _ _ _).
  - vm_compute; reflexivity.
  - vm_compute; discriminate.
  - vm_compute. repeat split; try reflexivity; eexists; reflexivity.
Defined.
